(** * Job Application Tracker: account store, per-user record store,
      query engine and session context of [app.py]

    The development embeds the Python program shallowly.

    - A Python [str] is a Rocq [string]; each character is the code point
      of the same number (0..255).  [len] is [String.length].
    - [users.json] is an optional finite map from usernames to JSON
      objects (finite maps from field names to strings); it is [None]
      while the file does not exist.
    - The [jobs_<username>.json] files of the data directory are a finite
      map from file names to the list of JSON rows they hold; two names
      are one file when they are the same string.  The script is given
      twice.  [load_data], [save_data] and [main_app] are the script while
      opening, reading and writing a file do not fail.  [load_data_os],
      [save_data_os] and [main_app_os] are the script with the refusals of
      the operating system: a file name that is no single path component
      of at most 255 bytes cannot be created.  The two agree for every
      username whose file can be created ([main_app_os_creatable]).
    - [st.session_state] is a record; a key that may be absent is an
      [option].
    - One run of the Streamlit script is a function of the session state,
      the files, the values of the widgets and the button that fired.
    - Search texts are regular expressions (pandas compiles them with
      [re]).  Module [Re] gives the meaning of the patterns made of
      ordinary characters and "."; the meaning of every other pattern is a
      parameter of the development. *)

From Stdlib Require Import ZArith Ascii String List Lia Bool.
From stdpp Require Import base option list gmap strings.

Local Open Scope string_scope.
Local Open Scope nat_scope.

(** ** Strings *)

Module Str.

Definition code (c : ascii) : Z := Z.of_N (N_of_ascii c).

Definition chr (z : Z) : ascii := ascii_of_N (Z.to_N z).

(** [bool(s)]: a string is truthy when it is not empty. *)
Definition truthy (s : string) : bool :=
  match s with
  | EmptyString => false
  | String _ _ => true
  end.

(** [unicode_tolower] on the code points below 256: the letters A-Z and
    the capital letters of the Latin-1 block (0xC0-0xDE without the
    multiplication sign 0xD7) move by 32. *)
Definition lower_char (c : ascii) : ascii :=
  let z := code c in
  if ((65 <=? z) && (z <=? 90))%Z then chr (z + 32)
  else if ((192 <=? z) && (z <=? 222) && negb (z =? 215))%Z then chr (z + 32)
  else c.

Fixpoint lower (s : string) : string :=
  match s with
  | EmptyString => EmptyString
  | String c r => String (lower_char c) (lower r)
  end.

Fixpoint prefixb (p s : string) : bool :=
  match p, s with
  | EmptyString, _ => true
  | String a p', String b s' => Ascii.eqb a b && prefixb p' s'
  | String _ _, EmptyString => false
  end.

(** [p in s] of Python: [p] occurs in [s] as a contiguous run. *)
Fixpoint contains (p s : string) : bool :=
  prefixb p s ||
  match s with
  | EmptyString => false
  | String _ s' => contains p s'
  end.

Fixpoint mem (c : ascii) (s : string) : bool :=
  match s with
  | EmptyString => false
  | String d r => Ascii.eqb c d || mem c r
  end.

End Str.

(** [STATUS_OPTIONS], lines 21-28. *)
Definition STATUS_OPTIONS : list string :=
  [ "Applied"; "Interview Scheduled"; "Interview Done"; "Offer Received";
    "Rejected"; "Withdrawn" ].

(** ** SHA-256 ([hashlib.sha256]) on 32-bit words held in [Z] *)

Module Sha256.

Local Open Scope Z_scope.

Definition w32 (x : Z) : Z := x mod 4294967296.

Definition add32 (x y : Z) : Z := w32 (x + y).

Definition rotr (n x : Z) : Z :=
  Z.lor (Z.shiftr x n) (w32 (Z.shiftl x (32 - n))).

Definition Ch (x y z : Z) : Z :=
  Z.lxor (Z.land x y) (Z.land (w32 (Z.lnot x)) z).

Definition Maj (x y z : Z) : Z :=
  Z.lxor (Z.lxor (Z.land x y) (Z.land x z)) (Z.land y z).

Definition Sigma0 (x : Z) : Z :=
  Z.lxor (Z.lxor (rotr 2 x) (rotr 13 x)) (rotr 22 x).

Definition Sigma1 (x : Z) : Z :=
  Z.lxor (Z.lxor (rotr 6 x) (rotr 11 x)) (rotr 25 x).

Definition sigma0 (x : Z) : Z :=
  Z.lxor (Z.lxor (rotr 7 x) (rotr 18 x)) (Z.shiftr x 3).

Definition sigma1 (x : Z) : Z :=
  Z.lxor (Z.lxor (rotr 17 x) (rotr 19 x)) (Z.shiftr x 10).

(** The first 64 primes, 2 to 311. *)
Definition is_prime (n : nat) : bool :=
  forallb (fun d => negb (Nat.eqb (Nat.modulo n d) 0)) (seq 2 (n - 2)).

Definition primes : list Z :=
  map Z.of_nat (List.filter is_prime (seq 2 310)).

(** The largest [r], built from the bits below [b], with [f r <= n]. *)
Fixpoint root_bits (f : Z -> Z) (b : nat) (n r : Z) : Z :=
  match b with
  | O => r
  | S b' =>
      let r' := r + 2 ^ Z.of_nat b' in
      root_bits f b' n (if f r' <=? n then r' else r)
  end.

(** The round constants: the first 32 bits of the fractional parts of the
    cube roots of the primes. *)
Definition K : list Z :=
  map (fun p => w32 (root_bits (fun x => x * x * x) 35 (p * 2 ^ 96) 0)) primes.

(** The initial hash value: the first 32 bits of the fractional parts of
    the square roots of the first 8 primes. *)
Definition H0 : list Z :=
  map (fun p => w32 (Z.sqrt (p * 2 ^ 64))) (firstn 8 primes).

(** The length of the message in bits, as [n] big-endian bytes. *)
Fixpoint be_bytes (n : nat) (x : Z) : list Z :=
  match n with
  | O => []
  | S n' => be_bytes n' (Z.shiftr x 8) ++ [x mod 256]
  end.

(** Padding: one 0x80 byte, zero bytes up to 56 modulo 64, then the bit
    length on 8 bytes. *)
Definition pad (msg : list Z) : list Z :=
  let len := Z.of_nat (length msg) in
  let zeros := Z.to_nat ((55 - len) mod 64) in
  msg ++ [128] ++ repeat 0 zeros ++ be_bytes 8 (8 * len).

Fixpoint words_of_bytes (n : nat) (bs : list Z) : list Z :=
  match n, bs with
  | S n', b0 :: b1 :: b2 :: b3 :: r =>
      (((b0 * 256 + b1) * 256 + b2) * 256 + b3) :: words_of_bytes n' r
  | _, _ => []
  end.

Definition word (ws : list Z) (i : nat) : Z := nth i ws 0.

(** The message schedule: [n] further words after those of [ws]. *)
Fixpoint schedule (n : nat) (ws : list Z) : list Z :=
  match n with
  | O => ws
  | S n' =>
      let t := length ws in
      let w := add32 (add32 (sigma1 (word ws (t - 2))) (word ws (t - 7)))
                     (add32 (sigma0 (word ws (t - 15))) (word ws (t - 16))) in
      schedule n' (ws ++ [w])
  end.

Definition round (st : list Z) (kw : Z * Z) : list Z :=
  match st with
  | [a; b; c; d; e; f; g; h] =>
      let t1 := add32 (add32 (add32 h (Sigma1 e)) (add32 (Ch e f g) (fst kw)))
                      (snd kw) in
      let t2 := add32 (Sigma0 a) (Maj a b c) in
      [add32 t1 t2; a; b; c; add32 d t1; e; f; g]
  | _ => st
  end.

Fixpoint zip_add (xs ys : list Z) : list Z :=
  match xs, ys with
  | x :: xs', y :: ys' => add32 x y :: zip_add xs' ys'
  | _, _ => []
  end.

Definition compress (h : list Z) (block : list Z) : list Z :=
  let ws := schedule 48 (words_of_bytes 16 block) in
  zip_add h (fold_left round (combine K ws) h).

(** The blocks of 64 bytes, at most [n] of them. *)
Fixpoint blocks (n : nat) (bs : list Z) : list (list Z) :=
  match n with
  | O => []
  | S n' =>
      match bs with
      | [] => []
      | _ => firstn 64 bs :: blocks n' (skipn 64 bs)
      end
  end.

Definition digest_words (msg : list Z) : list Z :=
  let p := pad msg in
  fold_left compress (blocks (length p) p) H0.

Definition hex_digit (x : Z) : ascii :=
  if x <? 10 then Str.chr (48 + x) else Str.chr (87 + x).

Fixpoint hex_of (n : nat) (x : Z) : string :=
  match n with
  | O => EmptyString
  | S n' => (hex_of n' (Z.shiftr x 4) +:+ String (hex_digit (x mod 16)) EmptyString)%string
  end.

Definition hexdigest (msg : list Z) : string :=
  fold_right (fun w acc => (hex_of 8 w +:+ acc)%string) EmptyString
             (digest_words msg).

End Sha256.

(** [str.encode()]: UTF-8 of the code points below 256. *)
Fixpoint encode (s : string) : list Z :=
  match s with
  | EmptyString => []
  | String c r =>
      let z := Str.code c in
      if (z <? 128)%Z then z :: encode r
      else Z.lor 192 (Z.shiftr z 6) :: Z.lor 128 (Z.land z 63) :: encode r
  end.

(** [hash_password], app.py lines 81-83. *)
Definition hash_password (password : string) : string :=
  Sha256.hexdigest (encode password).

(** ** Calendar dates ([datetime.date]) *)

Definition is_leap (y : Z) : bool :=
  (((y mod 4 =? 0) && negb (y mod 100 =? 0)) || (y mod 400 =? 0))%Z.

Definition days_in_month (y m : Z) : Z :=
  (if m =? 2 then (if is_leap y then 29 else 28)
   else if (m =? 4) || (m =? 6) || (m =? 9) || (m =? 11) then 30
   else 31)%Z.

(** What the constructor of [datetime.date] checks. *)
Definition valid_ymd (y m d : Z) : bool :=
  ((1 <=? y) && (y <=? 9999) && (1 <=? m) && (m <=? 12)
   && (1 <=? d) && (d <=? days_in_month y m))%Z.

(** A [datetime.date] object: a date exists only with valid fields. *)
Record date := mk_date {
  year : Z;
  month : Z;
  day : Z;
  date_ok : Is_true (valid_ymd year month day)
}.

Definition make_date (y m d : Z) : option date :=
  match decide (Is_true (valid_ymd y m d)) with
  | left H => Some (mk_date y m d H)
  | right _ => None
  end.

Definition digit (n : Z) : ascii := Str.chr (48 + n).

Definition digit_val (c : ascii) : option Z :=
  let n := Str.code c in
  if ((48 <=? n) && (n <=? 57))%Z then Some (n - 48)%Z else None.

Definition two_digits (n : Z) (rest : string) : string :=
  String (digit ((n / 10) mod 10)) (String (digit (n mod 10)) rest).

(** [str(d)], which is [d.isoformat()]: YYYY-MM-DD, zero padded. *)
Definition isoformat (d : date) : string :=
  two_digits (year d / 100)
    (two_digits (year d)
       (String "-"%char (two_digits (month d)
          (String "-"%char (two_digits (day d) ""))))).

Definition dash (c : ascii) : option unit :=
  if Ascii.eqb c "-"%char then Some tt else None.

(** [pd.to_datetime(...).dt.date] on one stored string.  The strings that
    [save_data] writes are ISO calendar dates, and every calendar date is
    taken to be within the range of [to_datetime]; a string of any other
    shape is treated as malformed data. *)
Definition parse_date (s : string) : option date :=
  match s with
  | String y3 (String y2 (String y1 (String y0 (String s1
      (String m1 (String m0 (String s2 (String d1 (String d0 EmptyString))))))))) =>
      a3 ← digit_val y3; a2 ← digit_val y2; a1 ← digit_val y1; a0 ← digit_val y0;
      _ ← dash s1;
      b1 ← digit_val m1; b0 ← digit_val m0;
      _ ← dash s2;
      c1 ← digit_val d1; c0 ← digit_val d0;
      make_date (1000 * a3 + 100 * a2 + 10 * a1 + a0) (10 * b1 + b0) (10 * c1 + c0)
  | _ => None
  end.

(** ** Exceptions and the ways a run of the script ends *)

Inductive exn :=
  | KeyError            (* a dict has no such key *)
  | CorruptStore        (* a stored date cannot be parsed *)
  | ReError             (* [re.error]: the pattern is not a regular
                           expression *)
  | OSError             (* the operating system refuses a file name *)
  | ValueError.         (* a file name with a NUL character *)

Inductive result (A : Type) :=
  | Ok (a : A)
  | Raise (e : exn).
Arguments Ok {A} a.
Arguments Raise {A} e.

Definition rbind {A B : Type} (r : result A) (k : A -> result B) : result B :=
  match r with
  | Ok a => k a
  | Raise e => Raise e
  end.

Inductive ending (P : Type) :=
  | Rerun               (* [st.rerun()] *)
  | Finished (page : P) (* the script ran to its end *)
  | Raised (e : exn).
Arguments Rerun {P}.
Arguments Finished {P} page.
Arguments Raised {P} e.

(** ** Record store: the [jobs_<username>.json] files *)

(** One row of the DataFrame; the columns are "Company Name", "Job Title",
    "Status", "Applied Date" and "Package". *)
Record row := mk_row {
  Company_Name : string;
  Job_Title : string;
  Status : string;
  Applied_Date : date;
  Package : string
}.

(** One object of the stored JSON list: the date is a string there. *)
Record json_row := mk_json_row {
  jCompany_Name : string;
  jJob_Title : string;
  jStatus : string;
  jApplied_Date : string;
  jPackage : string
}.

Abbreviation data_dir := (gmap string (list json_row)).

(** [get_user_data_file], lines 100-102, relative to [DATA_DIR]. *)
Definition get_user_data_file (username : string) : string :=
  "jobs_" +:+ username +:+ ".json".

Definition to_json (r : row) : json_row :=
  mk_json_row (Company_Name r) (Job_Title r) (Status r)
              (isoformat (Applied_Date r)) (Package r).

Definition of_json (j : json_row) : result row :=
  match parse_date (jApplied_Date j) with
  | Some d => Ok (mk_row (jCompany_Name j) (jJob_Title j) (jStatus j) d (jPackage j))
  | None => Raise CorruptStore
  end.

Fixpoint of_json_list (data : list json_row) : result (list row) :=
  match data with
  | [] => Ok []
  | j :: rest =>
      rbind (of_json j) (fun r =>
      rbind (of_json_list rest) (fun rs => Ok (r :: rs)))
  end.

(** [load_data], lines 105-115. *)
Definition load_data (username : string) (files : data_dir) : result (list row) :=
  match files !! get_user_data_file username with
  | Some data =>
      match data with
      | [] => Ok []
      | _ :: _ => of_json_list data
      end
  | None => Ok []
  end.

(** [save_data], lines 118-124: the file is overwritten in full. *)
Definition save_data (username : string) (df : list row) (files : data_dir) : data_dir :=
  <[get_user_data_file username := map to_json df]> files.

(** ** Credential store: [users.json] *)

(** One credential record: the JSON object stored under a username. *)
Abbreviation cred := (gmap string string).

(** The content of [users.json]. *)
Abbreviation users_map := (gmap string cred).

(** [load_users], lines 86-91: the empty dict when the file is absent. *)
Definition load_users (users_file : option users_map) : users_map :=
  match users_file with
  | Some users => users
  | None => ∅
  end.

(** [save_users], lines 94-97. *)
Definition save_users (users : users_map) : option users_map := Some users.

(** ** Regular expressions: the fragment of [re] the model covers *)

Module Re.

Inductive item :=
  | Lit (c : ascii)   (* an ordinary character *)
  | Dot.              (* "." : any character but a newline *)

(** The characters with a special meaning other than ".". *)
Definition special : string := "\^$*+?{}[]|()".

(** The patterns of the fragment, compiled; [None] when the pattern has a
    special character other than ".". *)
Fixpoint compile (pat : string) : option (list item) :=
  match pat with
  | EmptyString => Some []
  | String c rest =>
      if Ascii.eqb c "."%char then cons Dot <$> compile rest
      else if Str.mem c special then None
      else cons (Lit c) <$> compile rest
  end.

(** One item against one character; [ignorecase] is [re.IGNORECASE]. *)
Definition item_matches (ignorecase : bool) (it : item) (c : ascii) : bool :=
  match it with
  | Lit a =>
      if ignorecase then Ascii.eqb (Str.lower_char a) (Str.lower_char c)
      else Ascii.eqb a c
  | Dot => negb (Ascii.eqb c "010"%char)
  end.

Fixpoint match_here (ignorecase : bool) (items : list item) (s : string) : bool :=
  match items, s with
  | [], _ => true
  | it :: items', String c s' =>
      item_matches ignorecase it c && match_here ignorecase items' s'
  | _ :: _, EmptyString => false
  end.

(** [pattern.search(s) is not None]. *)
Fixpoint search (ignorecase : bool) (items : list item) (s : string) : bool :=
  match_here ignorecase items s ||
  match s with
  | EmptyString => false
  | String _ s' => search ignorecase items s'
  end.

End Re.

(** A choice for the meaning of the patterns outside the fragment, used in
    the worked examples: [re.compile] rejects them all. *)
Definition no_rest : string -> option (bool -> string -> bool) :=
  fun _ => None.

(** ** Session state ([st.session_state]) *)

Record session := mk_session {
  logged_in : bool;
  username : option string;        (* [None]: Python's None *)
  display_name : option string;
  jobs_df : option (list row);     (* [None]: the key is absent *)
  current_user : option string;    (* [None]: the key is absent *)
  show_confirm : bool              (* absent reads as [False] *)
}.

(** The session of a browser tab that has just connected, after the first
    lines of [main] (lines 389-390). *)
Definition new_session : session :=
  mk_session false None None None None false.

Definition set_jobs_df (df : option (list row)) (s : session) : session :=
  mk_session (logged_in s) (username s) (display_name s) df
             (current_user s) (show_confirm s).

Definition set_current_user (u : option string) (s : session) : session :=
  mk_session (logged_in s) (username s) (display_name s) (jobs_df s)
             u (show_confirm s).

Definition set_show_confirm (b : bool) (s : session) : session :=
  mk_session (logged_in s) (username s) (display_name s) (jobs_df s)
             (current_user s) b.

(** ** The login page ([login_page], lines 127-186) *)

Inductive message :=
  | LoginSuccessful
  | InvalidUsernameOrPassword
  | EnterBothUsernameAndPassword
  | PasswordsDoNotMatch
  | PasswordTooShort
  | UsernameAlreadyExists
  | AccountCreated
  | FillInAllFields
  | FillInCompanyAndTitle.

(** The form that was submitted in this run, with its fields. *)
Inductive login_input :=
  | NoSubmit
  | LoginSubmit (username password : string)
  | RegisterSubmit (new_username new_display_name new_password
                    confirm_password now : string).

(** The login form, lines 144-156. *)
Definition login_form (uname password : string)
    (s : session) (users_file : option users_map)
  : session * ending (option message) :=
  if Str.truthy uname && Str.truthy password then
    let users := load_users users_file in
    match users !! uname with
    | Some rec =>
        match rec !! "password" with
        | Some stored =>
            if String.eqb stored (hash_password password) then
              (mk_session true (Some uname)
                          (Some (default uname (rec !! "display_name")))
                          (jobs_df s) (current_user s) (show_confirm s),
               Rerun)
            else (s, Finished (Some InvalidUsernameOrPassword))
        | None => (s, Raised KeyError)
        end
    | None => (s, Finished (Some InvalidUsernameOrPassword))
    end
  else (s, Finished (Some EnterBothUsernameAndPassword)).

(** The registration form, lines 167-186. *)
Definition register_form (new_username new_display_name new_password
                          confirm_password now : string)
    (users_file : option users_map)
  : option users_map * message :=
  if Str.truthy new_username && Str.truthy new_password
     && Str.truthy new_display_name then
    if negb (String.eqb new_password confirm_password) then
      (users_file, PasswordsDoNotMatch)
    else if String.length new_password <? 4 then
      (users_file, PasswordTooShort)
    else
      let users := load_users users_file in
      match users !! new_username with
      | Some _ => (users_file, UsernameAlreadyExists)
      | None =>
          (save_users
             (<[new_username :=
                  <["password" := hash_password new_password]>
                    (<["display_name" := new_display_name]>
                       {["created_at" := now]})]> users),
           AccountCreated)
      end
  else (users_file, FillInAllFields).

Definition login_page (i : login_input)
    (s : session) (users_file : option users_map)
  : session * option users_map * ending (option message) :=
  match i with
  | NoSubmit => (s, users_file, Finished None)
  | LoginSubmit u p =>
      let '(s', e) := login_form u p s users_file in (s', users_file, e)
  | RegisterSubmit u d p c now =>
      let '(f', m) := register_form u d p c now users_file in
      (s, f', Finished (Some m))
  end.

(** * The main page and the script, for any meaning of the other patterns *)

Section App.

(** [re.compile] and [search] on the patterns outside the fragment of
    module [Re]: [None] when [re.compile] raises [re.error]; otherwise the
    function that tells, given whether case is ignored and given a string,
    whether the pattern is found in the string. *)
Variable re_rest : string -> option (bool -> string -> bool).

(** [Series.str.contains(pat, case=..., na=False)] of pandas: [regex] is
    [True] by default, so [pat] is compiled as a regular expression, with
    [re.IGNORECASE] when [case] is [False]; the result is the mask. *)
Definition str_contains (pat : string) (case : bool) (column : list string)
  : result (list bool) :=
  match Re.compile pat with
  | Some items => Ok (map (Re.search (negb case) items) column)
  | None =>
      match re_rest pat with
      | Some found => Ok (map (found (negb case)) column)
      | None => Raise ReError
      end
  end.

(** ** The main page ([main_app], lines 189-383) *)

(** [df[mask]]: the rows at which the boolean mask is true, in order. *)
Fixpoint select (df : list row) (mask : list bool) : list row :=
  match df, mask with
  | r :: df', b :: mask' => if b then r :: select df' mask' else select df' mask'
  | _, _ => []
  end.

(** [mask1 | mask2]. *)
Fixpoint mask_or (m1 m2 : list bool) : list bool :=
  match m1, m2 with
  | a :: m1', b :: m2' => (a || b) :: mask_or m1' m2'
  | _, _ => []
  end.

(** [df["Status"] == value]. *)
Definition status_is (value : string) (df : list row) : list bool :=
  map (fun r => String.eqb (Status r) value) df.

(** The filters, lines 270-281. *)
Definition apply_filters (df : list row) (search_query status_filter : string)
  : result (list row) :=
  rbind
    (if Str.truthy search_query then
       rbind (str_contains search_query false (map Company_Name df)) (fun m1 =>
       rbind (str_contains search_query false (map Job_Title df)) (fun m2 =>
       Ok (select df (mask_or m1 m2))))
     else Ok df)
    (fun filtered_df =>
       if negb (String.eqb status_filter "All") then
         Ok (select filtered_df (status_is status_filter filtered_df))
       else Ok filtered_df).

Record stats := mk_stats {
  total_apps : nat;
  interview_count : nat;
  offers : nat;
  pending : nat
}.

(** The four metrics, lines 285-299, over the snapshot of the session. *)
Definition statistics (df : list row) : result stats :=
  rbind (str_contains "Interview" true (map Status df)) (fun m =>
  Ok (mk_stats (length df)
               (length (select df m))
               (length (select df (status_is "Offer Received" df)))
               (length (select df (status_is "Applied" df))))).

(** The button that fired in this run. *)
Inductive button :=
  | NoButton
  | Logout
  | AddApplication
  | RefreshData
  | SaveChanges
  | ClearAll
  | YesDeleteAll
  | Cancel.

Definition button_eqb (a b : button) : bool :=
  match a, b with
  | NoButton, NoButton | Logout, Logout | AddApplication, AddApplication
  | RefreshData, RefreshData | SaveChanges, SaveChanges | ClearAll, ClearAll
  | YesDeleteAll, YesDeleteAll | Cancel, Cancel => true
  | _, _ => false
  end.

(** The values of the widgets in one run.  [data_editor] is what the user
    has made of the table the editor was given. *)
Record widgets := mk_widgets {
  clicked : button;
  company_name : string;
  job_title : string;
  status : string;
  applied_date : date;
  package : string;
  search_query : string;
  status_filter : string;
  data_editor : list row -> list row
}.

(** What a finished run shows. *)
Record page := mk_page {
  shown_error : option message;
  shown_stats : stats;
  shown_table : list row;      (* the edited table; empty when the page has
                                  the "No job applications found" note *)
  shown_confirm : bool         (* the "Are you sure" dialog *)
}.

(** The text an f-string gives for a value that is [None] or a string. *)
Definition py_str (v : option string) : string := default "None" v.

(** Lines 209-212: make the snapshot that of the current user. *)
Definition init_snapshot (s : session) (files : data_dir)
  : result (session * list row) :=
  let reload :=
    rbind (load_data (py_str (username s)) files) (fun df =>
    Ok (set_current_user (username s) (set_jobs_df (Some df) s), df)) in
  match jobs_df s with
  | Some df =>
      if decide (current_user s = username s) then Ok (s, df) else reload
  | None => reload
  end.

Definition main_app (w : widgets) (s : session) (files : data_dir)
  : session * data_dir * ending page :=
  let uname := py_str (username s) in
  (* lines 200-205 *)
  if button_eqb (clicked w) Logout then
    (mk_session false None None None (current_user s) (show_confirm s),
     files, Rerun)
  else
  (* lines 209-212 *)
  match init_snapshot s files with
  | Raise e => (s, files, Raised e)
  | Ok (s1, df) =>
  (* lines 227-241 *)
  if button_eqb (clicked w) AddApplication
     && (Str.truthy (company_name w) && Str.truthy (job_title w)) then
    let new_row := mk_row (company_name w) (job_title w) (status w)
                          (applied_date w) (package w) in
    let df' := (df ++ [new_row])%list in
    (set_jobs_df (Some df') s1, save_data uname df' files, Rerun)
  else
  let err := if button_eqb (clicked w) AddApplication
             then Some FillInCompanyAndTitle else None in
  (* lines 265-268 *)
  if button_eqb (clicked w) RefreshData then
    match load_data uname files with
    | Ok df' => (set_jobs_df (Some df') s1, files, Rerun)
    | Raise e => (s1, files, Raised e)
    end
  else
  (* lines 270-281 *)
  match apply_filters df (search_query w) (status_filter w) with
  | Raise e => (s1, files, Raised e)
  | Ok filtered_df =>
  (* lines 285-299 *)
  match statistics df with
  | Raise e => (s1, files, Raised e)
  | Ok st =>
  (* lines 306-375 *)
  match filtered_df with
  | [] => (s1, files, Finished (mk_page err st [] false))
  | _ :: _ =>
      let edited_df := data_editor w filtered_df in
      if button_eqb (clicked w) SaveChanges then
        (set_jobs_df (Some edited_df) s1, save_data uname edited_df files, Rerun)
      else
      let s2 := if button_eqb (clicked w) ClearAll
                then set_show_confirm true s1 else s1 in
      if show_confirm s2 then
        if button_eqb (clicked w) YesDeleteAll then
          (set_show_confirm false (set_jobs_df (Some []) s2),
           save_data uname [] files, Rerun)
        else if button_eqb (clicked w) Cancel then
          (set_show_confirm false s2, files, Rerun)
        else (s2, files, Finished (mk_page err st edited_df true))
      else (s2, files, Finished (mk_page err st edited_df false))
  end
  end
  end
  end.

(** ** The script ([main], lines 386-396) *)

Record app := mk_app {
  sess : session;
  users_file : option users_map;
  files : data_dir
}.

(** What the user does in one run: on the login page a form, on the main
    page the widgets. *)
Record input := mk_input {
  on_login : login_input;
  on_main : widgets
}.

Definition main (i : input) (a : app) : app :=
  if logged_in (sess a) then
    let '(s, f, _) := main_app (on_main i) (sess a) (files a) in
    mk_app s (users_file a) f
  else
    let '(s, u, _) := login_page (on_login i) (sess a) (users_file a) in
    mk_app s u (files a).

(** The states the application reaches from a fresh session. *)
Inductive reachable (users0 : option users_map) (files0 : data_dir) : app -> Prop :=
  | reach_start : reachable users0 files0 (mk_app new_session users0 files0)
  | reach_step i a : reachable users0 files0 a -> reachable users0 files0 (main i a).


(** The runs of a sequence of user actions on the main page. *)
Fixpoint run_all (ws : list widgets) (s : session) (fs : data_dir)
  : session * data_dir :=
  match ws with
  | [] => (s, fs)
  | w :: ws' => let '(s', fs', _) := main_app w s fs in run_all ws' s' fs'
  end.

(** The runs of the script on a sequence of inputs. *)
Definition play (story : list input) (a : app) : app :=
  fold_left (fun a i => main i a) story a.

(** ** Notions used in the statements *)


(** The buttons that change the records: the add form, "Save Changes" and
    the confirmation of "Clear All". *)
Definition mutating (b : button) : bool :=
  match b with
  | AddApplication | SaveChanges | YesDeleteAll => true
  | _ => false
  end.

(** The row the add form makes of its fields. *)
Definition form_row (w : widgets) : row :=
  mk_row (company_name w) (job_title w) (status w) (applied_date w) (package w).

(** A search text is plain when none of its characters has a meaning in a
    regular expression. *)
Fixpoint plain (q : string) : bool :=
  match q with
  | EmptyString => true
  | String c rest =>
      negb (Ascii.eqb c "."%char) && negb (Str.mem c Re.special) && plain rest
  end.

Fixpoint literals (q : string) : list Re.item :=
  match q with
  | EmptyString => []
  | String c rest => Re.Lit c :: literals rest
  end.

(** Case folding of the text when the search ignores case. *)
Definition fold_case (ignorecase : bool) (s : string) : string :=
  if ignorecase then Str.lower s else s.

(** A snapshot, when the session has one, is the stored collection of the
    user who is logged in. *)
Definition owned (s : session) (fs : data_dir) : Prop :=
  (logged_in s = true -> is_Some (username s))
  /\ forall df, jobs_df s = Some df ->
       logged_in s = true
       /\ current_user s = username s
       /\ load_data (py_str (username s)) fs = Ok df.

(** ** The query engine as the specification words it *)

(** A record matches a search text when its company name or its job title
    contains the text, letter case ignored. *)
Definition matches_search (searchText : string) (r : row) : bool :=
  Str.contains (Str.lower searchText) (Str.lower (Company_Name r))
  || Str.contains (Str.lower searchText) (Str.lower (Job_Title r)).

Definition keeps (searchText statusFilter : string) (r : row) : bool :=
  (negb (Str.truthy searchText) || matches_search searchText r)
  && (String.eqb statusFilter "All" || String.eqb (Status r) statusFilter).

(** [filter(records, searchText, statusFilter)] of the specification. *)
Definition spec_filter (records : list row) (searchText statusFilter : string)
  : list row :=
  List.filter (keeps searchText statusFilter) records.

Definition count (p : row -> bool) (records : list row) : nat :=
  length (List.filter p records).

(** [aggregate(records)] of the specification. *)
Definition aggregate (records : list row) : stats :=
  mk_stats (length records)
           (count (fun r => Str.contains "Interview" (Status r)) records)
           (count (fun r => String.eqb (Status r) "Offer Received") records)
           (count (fun r => String.eqb (Status r) "Applied") records).

(** ** Sample data *)

Definition jan10 : date := mk_date 2024 1 10 I.

Definition acme : row := mk_row "Acme" "Engineer" "Applied" jan10 "".

Definition globex : row :=
  mk_row "Globex" "Analyst" "Interview Scheduled" jan10 "12 LPA".



(** One registered user, "alice" with the password "pass1234". *)
Definition users_alice : option users_map :=
  Some {[ "alice" :=
            <["password" := hash_password "pass1234"]>
              (<["display_name" := "Alice"]>
                 {["created_at" := "2024-01-10T09:00:00"]}) ]}.

(** A store in which the record of "bob" holds the digest of the empty
    password. *)
Definition users_blank : option users_map :=
  Some {[ "bob" := {[ "password" := hash_password "" ]} ]}.

(** A store whose record for "carol" has no [display_name] field. *)
Definition users_carol : option users_map :=
  Some {[ "carol" := {[ "password" := hash_password "secret" ]} ]}.

(** The session right after "alice" has logged in. *)
Definition alice_in : session :=
  mk_session true (Some "alice") (Some "Alice") None None false.

(** The session of "alice" once the page has loaded her one record. *)
Definition alice_ready : session :=
  mk_session true (Some "alice") (Some "Alice") (Some [acme]) (Some "alice") false.

(** "alice" has pressed "Clear All" and the dialog is open. *)
Definition alice_asked : session := set_show_confirm true alice_ready.

Definition files_alice : data_dir := save_data "alice" [acme] ∅.

(** The files after "bob" has stored a record of his own. *)
Definition files_both : data_dir := save_data "bob" [globex] files_alice.



(** Nothing pressed, empty search text, all statuses. *)
Definition idle : widgets :=
  mk_widgets NoButton "" "" "Applied" jan10 "" "" "All" (fun table => table).

Definition press (b : button) (w : widgets) : widgets :=
  mk_widgets b (company_name w) (job_title w) (status w) (applied_date w)
             (package w) (search_query w) (status_filter w) (data_editor w).

(** The add form filled with the record of Acme, and with that of Globex. *)
Definition add_acme : widgets :=
  mk_widgets AddApplication "Acme" "Engineer" "Applied" jan10 "" "" "All"
             (fun table => table).

Definition add_globex : widgets :=
  mk_widgets AddApplication "Globex" "Analyst" "Interview Scheduled" jan10
             "12 LPA" "" "All" (fun table => table).


(** The user sets the status of every row to "Interview Scheduled" and
    presses "Save Changes". *)
Definition save_interview : widgets :=
  mk_widgets SaveChanges "" "" "Applied" jan10 "" "" "All"
    (map (fun r => mk_row (Company_Name r) (Job_Title r) "Interview Scheduled"
                          (Applied_Date r) (Package r))).

(** "alice" registers, logs in, sees her page, and adds a record. *)
Definition alice_story : list input :=
  [ mk_input (RegisterSubmit "alice" "Alice" "pass1234" "pass1234"
                             "2024-01-10T09:00:00") idle;
    mk_input (LoginSubmit "alice" "pass1234") idle;
    mk_input NoSubmit idle;
    mk_input NoSubmit add_acme ].

(** Then she logs out, and "bob" registers, logs in and sees his page. *)
Definition bob_story : list input :=
  [ mk_input NoSubmit (press Logout idle);
    mk_input (RegisterSubmit "bob" "Bob" "hunter22" "hunter22"
                             "2024-01-11T09:00:00") idle;
    mk_input (LoginSubmit "bob" "hunter22") idle;
    mk_input NoSubmit idle ].

(** ** Further notions *)

(** The buttons under the table; they exist only while a table is shown. *)
Definition table_button (b : button) : bool :=
  match b with
  | SaveChanges | ClearAll | YesDeleteAll | Cancel => true
  | _ => false
  end.

(** The session that "Logout" leaves. *)
Definition logged_out (s : session) : session :=
  mk_session false None None None (current_user s) (show_confirm s).

Fixpoint chars (s : string) : list ascii :=
  match s with
  | EmptyString => []
  | String c r => c :: chars r
  end.

(** The records of a credential store as the registration form writes
    them: a non-empty username, the three fields, and a password field of
    64 characters. *)
Definition registered (users : users_map) : Prop :=
  forall v rec, users !! v = Some rec ->
    v <> ""
    /\ (exists h, rec !! "password" = Some h /\ String.length h = 64)
    /\ is_Some (rec !! "display_name")
    /\ is_Some (rec !! "created_at").

(** The two statuses of the vocabulary that name an interview. *)
Definition interview_status (s : string) : bool :=
  String.eqb s "Interview Scheduled" || String.eqb s "Interview Done".

(** A stored collection whose one row has a date that is no date. *)
Definition files_broken : data_dir :=
  {[ get_user_data_file "alice" :=
       [mk_json_row "Acme" "Engineer" "Applied" "soon" ""] ]}.

(** The add form with the job title left empty. *)
Definition add_untitled : widgets :=
  mk_widgets AddApplication "Acme" "" "Applied" jan10 "" "" "All"
             (fun table => table).



Definition files_two : data_dir := save_data "alice" [acme; globex] ∅.

(** The record of "alice" in [users_alice]. *)
Definition alice_record : cred :=
  <["password" := hash_password "pass1234"]>
    (<["display_name" := "Alice"]> {["created_at" := "2024-01-10T09:00:00"]}).

(** A store whose record for "zed" has no [password] field. *)
Definition users_zed : option users_map :=
  Some {[ "zed" := {[ "display_name" := "Zed" ]} ]}.

(** A store with "bob", whose password is "hunter22". *)
Definition users_bob : option users_map :=
  Some {[ "bob" :=
            <["password" := hash_password "hunter22"]>
              (<["display_name" := "Bob"]>
                 {["created_at" := "2024-01-11T09:00:00"]}) ]}.

(** The session of "bob" right after his login that follows the logout of
    "alice", who had asked to clear her records. *)
Definition bob_after_request : session :=
  mk_session true (Some "bob") (Some "Bob") None (Some "alice") true.

(** "bob" registers while "alice" is in the store. *)
Definition bob_registers : list input :=
  [ mk_input (RegisterSubmit "bob" "Bob" "hunter22" "hunter22"
                             "2024-01-11T09:00:00") idle ].

(** The search text is an opening bracket. *)
Definition search_bracket : widgets :=
  mk_widgets NoButton "" "" "Applied" jan10 "" "(" "All" (fun table => table).

(** The story of "alice", ended by her logout. *)
Definition alice_leaves : list input :=
  (alice_story ++ [mk_input NoSubmit (press Logout idle)])%list.

(** * The script with the refusals of the operating system *)

(** ** File names *)

Definition NUL : ascii := "000"%char.

(** The length of a text in bytes (UTF-8). *)
Definition byte_length (s : string) : nat := length (encode s).

(** A file of this name can be created in the data directory, which holds
    files only: the name is a single path component (it has no "/"), it
    has no NUL character, and it is at most 255 bytes long. *)
Definition creatable (name : string) : bool :=
  negb (Str.mem "/"%char name) && negb (Str.mem NUL name)
  && (byte_length name <=? 255).

(** The part of a name before its first "/". *)
Fixpoint first_component (name : string) : string :=
  match name with
  | EmptyString => EmptyString
  | String c rest =>
      if Ascii.eqb c "/"%char then EmptyString
      else String c (first_component rest)
  end.

(** A choice for the answer of [Path.exists()], used in the worked
    examples: it raises when the first component of the name is longer than
    255 bytes (as on Linux with the [exists] of Python 3.11). *)
Definition stat_long (name : string) : bool :=
  255 <? byte_length (first_component name).

(** [Path.exists()] on a name that cannot be created and has no NUL
    character: whether it raises [OSError] (as for a name that is too
    long, where the error is not one of those that [exists] takes for
    "no such file") or answers [False]. *)
Variable stat_raises : string -> bool.

(** [data_file.exists()], line 108. *)
Definition exists_os (name : string) (fs : data_dir) : result bool :=
  if creatable name then
    Ok (match fs !! name with Some _ => true | None => false end)
  else if Str.mem NUL name then Ok false
  else if stat_raises name then Raise OSError
  else Ok false.

(** The exception of [open(data_file, "w")], line 123, on a name that
    cannot be created. *)
Definition open_error (name : string) : exn :=
  if Str.mem NUL name then ValueError else OSError.

(** [load_data], lines 105-115. *)
Definition load_data_os (username : string) (fs : data_dir) : result (list row) :=
  let data_file := get_user_data_file username in
  rbind (exists_os data_file fs) (fun present =>
  if present then
    match fs !! data_file with
    | Some data =>
        match data with
        | [] => Ok []
        | _ :: _ => of_json_list data
        end
    | None => Ok []
    end
  else Ok []).

(** [save_data], lines 118-124. *)
Definition save_data_os (username : string) (df : list row) (fs : data_dir)
  : result data_dir :=
  let data_file := get_user_data_file username in
  if creatable data_file then Ok (<[data_file := map to_json df]> fs)
  else Raise (open_error data_file).

(** ** The main page and the script *)

(** Lines 209-212. *)
Definition init_snapshot_os (s : session) (fs : data_dir)
  : result (session * list row) :=
  let reload :=
    rbind (load_data_os (py_str (username s)) fs) (fun df =>
    Ok (set_current_user (username s) (set_jobs_df (Some df) s), df)) in
  match jobs_df s with
  | Some df =>
      if decide (current_user s = username s) then Ok (s, df) else reload
  | None => reload
  end.

(** [main_app], lines 189-383.  The snapshot of the session is assigned
    before the save (lines 236, 353 and 368), so a save that raises leaves
    the new snapshot in the session. *)
Definition main_app_os (w : widgets) (s : session) (fs : data_dir)
  : session * data_dir * ending page :=
  let uname := py_str (username s) in
  (* lines 200-205 *)
  if button_eqb (clicked w) Logout then
    (mk_session false None None None (current_user s) (show_confirm s),
     fs, Rerun)
  else
  (* lines 209-212 *)
  match init_snapshot_os s fs with
  | Raise e => (s, fs, Raised e)
  | Ok (s1, df) =>
  (* lines 227-241 *)
  if button_eqb (clicked w) AddApplication
     && (Str.truthy (company_name w) && Str.truthy (job_title w)) then
    let new_row := mk_row (company_name w) (job_title w) (status w)
                          (applied_date w) (package w) in
    let df' := (df ++ [new_row])%list in
    match save_data_os uname df' fs with
    | Ok fs' => (set_jobs_df (Some df') s1, fs', Rerun)
    | Raise e => (set_jobs_df (Some df') s1, fs, Raised e)
    end
  else
  let err := if button_eqb (clicked w) AddApplication
             then Some FillInCompanyAndTitle else None in
  (* lines 265-268 *)
  if button_eqb (clicked w) RefreshData then
    match load_data_os uname fs with
    | Ok df' => (set_jobs_df (Some df') s1, fs, Rerun)
    | Raise e => (s1, fs, Raised e)
    end
  else
  (* lines 270-281 *)
  match apply_filters df (search_query w) (status_filter w) with
  | Raise e => (s1, fs, Raised e)
  | Ok filtered_df =>
  (* lines 285-299 *)
  match statistics df with
  | Raise e => (s1, fs, Raised e)
  | Ok st =>
  (* lines 306-375 *)
  match filtered_df with
  | [] => (s1, fs, Finished (mk_page err st [] false))
  | _ :: _ =>
      let edited_df := data_editor w filtered_df in
      if button_eqb (clicked w) SaveChanges then
        match save_data_os uname edited_df fs with
        | Ok fs' => (set_jobs_df (Some edited_df) s1, fs', Rerun)
        | Raise e => (set_jobs_df (Some edited_df) s1, fs, Raised e)
        end
      else
      let s2 := if button_eqb (clicked w) ClearAll
                then set_show_confirm true s1 else s1 in
      if show_confirm s2 then
        if button_eqb (clicked w) YesDeleteAll then
          match save_data_os uname [] fs with
          | Ok fs' =>
              (set_show_confirm false (set_jobs_df (Some []) s2), fs', Rerun)
          | Raise e => (set_jobs_df (Some []) s2, fs, Raised e)
          end
        else if button_eqb (clicked w) Cancel then
          (set_show_confirm false s2, fs, Rerun)
        else (s2, fs, Finished (mk_page err st edited_df true))
      else (s2, fs, Finished (mk_page err st edited_df false))
  end
  end
  end
  end.

(** [main], lines 386-396. *)
Definition main_os (i : input) (a : app) : app :=
  if logged_in (sess a) then
    let '(s, f, _) := main_app_os (on_main i) (sess a) (files a) in
    mk_app s (users_file a) f
  else
    let '(s, u, _) := login_page (on_login i) (sess a) (users_file a) in
    mk_app s u (files a).

(** The states the application reaches from a fresh session. *)
Inductive reachable_os (users0 : option users_map) (files0 : data_dir)
  : app -> Prop :=
  | reach_os_start : reachable_os users0 files0 (mk_app new_session users0 files0)
  | reach_os_step i a :
      reachable_os users0 files0 a -> reachable_os users0 files0 (main_os i a).

Fixpoint run_all_os (ws : list widgets) (s : session) (fs : data_dir)
  : session * data_dir :=
  match ws with
  | [] => (s, fs)
  | w :: ws' => let '(s', fs', _) := main_app_os w s fs in run_all_os ws' s' fs'
  end.

Definition play_os (story : list input) (a : app) : app :=
  fold_left (fun a i => main_os i a) story a.

(** A snapshot, when the session has one, was put there for the user who
    is logged in, and is the stored collection of that user when the file
    of the user can be created. *)
Definition owned_os (s : session) (fs : data_dir) : Prop :=
  (logged_in s = true -> is_Some (username s))
  /\ forall df, jobs_df s = Some df ->
       logged_in s = true
       /\ current_user s = username s
       /\ (creatable (get_user_data_file (py_str (username s))) = true ->
           load_data_os (py_str (username s)) fs = Ok df).

(** ** Sample data: names that are no file names *)

Fixpoint copies (n : nat) (c : ascii) : string :=
  match n with
  | O => EmptyString
  | S n' => String c (copies n' c)
  end.

(** A username of 300 characters. *)
Definition long_name : string := copies 300 "x"%char.

(** The session right after "a/b" has logged in, and the session after the
    add form has been submitted in it. *)
Definition ab_in : session :=
  mk_session true (Some "a/b") (Some "Ab") None None false.

Definition ab_unsaved : session :=
  mk_session true (Some "a/b") (Some "Ab") (Some [acme]) (Some "a/b") false.

(** "a/b" registers, logs in, sees the page, and adds a record. *)
Definition ab_story : list input :=
  [ mk_input (RegisterSubmit "a/b" "Ab" "pass1234" "pass1234"
                             "2024-01-12T09:00:00") idle;
    mk_input (LoginSubmit "a/b" "pass1234") idle;
    mk_input NoSubmit idle;
    mk_input NoSubmit add_acme ].

(** "alice" registers and logs in. *)
Definition alice_arrives : list input :=
  [ mk_input (RegisterSubmit "alice" "Alice" "pass1234" "pass1234"
                             "2024-01-10T09:00:00") idle;
    mk_input (LoginSubmit "alice" "pass1234") idle ].
(** * Properties *)

(** ** Dates survive their ISO text *)

Lemma digit_val_digit (k : Z) :
  (0 <= k < 10)%Z -> digit_val (digit k) = Some k.
Proof.
  intros Hk.
  assert (Hc : (k = 0 \/ k = 1 \/ k = 2 \/ k = 3 \/ k = 4 \/ k = 5 \/ k = 6
                \/ k = 7 \/ k = 8 \/ k = 9)%Z) by lia.
  repeat (destruct Hc as [-> | Hc]; [reflexivity |]).
  subst k. reflexivity.
Qed.

Lemma valid_ymd_bounds (y m d : Z) :
  Is_true (valid_ymd y m d) ->
  (1 <= y <= 9999 /\ 1 <= m <= 12 /\ 1 <= d <= 31)%Z.
Proof.
  unfold valid_ymd. intros H.
  repeat (apply andb_prop_elim in H; destruct H as [H ?]).
  repeat match goal with
         | X : Is_true (_ <=? _)%Z |- _ => apply Is_true_eq_true, Z.leb_le in X
         end.
  assert (days_in_month y m <= 31)%Z.
  { unfold days_in_month. repeat case_match; lia. }
  lia.
Qed.

Lemma make_date_fields (d : date) :
  make_date (year d) (month d) (day d) = Some d.
Proof.
  destruct d as [y m dd H]. unfold make_date. simpl.
  destruct (decide (Is_true (valid_ymd y m dd))) as [H' | H'].
  - f_equal. f_equal. apply proof_irrel.
  - contradiction.
Qed.

Lemma parse_date_isoformat (d : date) : parse_date (isoformat d) = Some d.
Proof.
  pose proof (valid_ymd_bounds _ _ _ (date_ok d)) as (Hy & Hm & Hd).
  unfold isoformat, two_digits. cbn [parse_date].
  rewrite !digit_val_digit by (try apply Z.mod_pos_bound; lia).
  cbn.
  rewrite <- (make_date_fields d).
  f_equal; Z.div_mod_to_equations; lia.
Qed.

(** ** The record store *)

Lemma of_json_to_json (r : row) : of_json (to_json r) = Ok r.
Proof.
  destruct r as [c j s d p]. unfold of_json, to_json.
  cbn -[parse_date isoformat]. rewrite parse_date_isoformat. reflexivity.
Qed.

Lemma of_json_list_to_json (df : list row) :
  of_json_list (map to_json df) = Ok df.
Proof.
  induction df as [| r df IH]; simpl.
  - reflexivity.
  - rewrite of_json_to_json. simpl. rewrite IH. reflexivity.
Qed.

(** What was saved for a user is what is loaded for that user. *)
Lemma load_data_save_data (u : string) (df : list row) (fs : data_dir) :
  load_data u (save_data u df fs) = Ok df.
Proof.
  unfold load_data, save_data. rewrite lookup_insert_eq.
  destruct df as [| r df]; [reflexivity |].
  change (map to_json (r :: df)) with (to_json r :: map to_json df) at 1.
  cbv iota. apply of_json_list_to_json.
Qed.

Lemma append_inj_l (p a b : string) : p +:+ a = p +:+ b -> a = b.
Proof.
  induction p as [| c p IH]; simpl; intros H.
  - exact H.
  - injection H as H. auto.
Qed.

Lemma length_append (a b : string) :
  String.length (a +:+ b) = String.length a + String.length b.
Proof. induction a as [| c a IH]; simpl; [reflexivity | now rewrite IH]. Qed.

Lemma append_inj_r (a b : string) :
  forall c d : ascii, forall t : string,
  a +:+ String c t = b +:+ String d t -> a = b.
Proof.
  revert b. induction a as [| x a IH]; intros [| y b] c d t H; simpl in H.
  - reflexivity.
  - exfalso. apply (f_equal String.length) in H. simpl in H.
    rewrite length_append in H. simpl in H. lia.
  - exfalso. apply (f_equal String.length) in H. simpl in H.
    rewrite length_append in H. simpl in H. lia.
  - injection H as -> H. f_equal. eauto.
Qed.

(** Distinct usernames have distinct files. *)
Lemma get_user_data_file_inj (u1 u2 : string) :
  get_user_data_file u1 = get_user_data_file u2 -> u1 = u2.
Proof.
  unfold get_user_data_file. intros H.
  apply append_inj_l in H.
  exact (append_inj_r _ _ _ _ _ H).
Qed.

Lemma load_data_save_data_ne (u1 u2 : string) (df : list row) (fs : data_dir) :
  u1 <> u2 -> load_data u2 (save_data u1 df fs) = load_data u2 fs.
Proof.
  intros Hne. unfold load_data, save_data.
  rewrite lookup_insert_ne; [reflexivity |].
  intros H. apply Hne. exact (get_user_data_file_inj _ _ H).
Qed.

(** ** Search texts without special characters *)

Lemma compile_plain (q : string) :
  plain q = true -> Re.compile q = Some (literals q).
Proof.
  induction q as [| c q IH]; simpl; intros H.
  - reflexivity.
  - apply andb_true_iff in H as [H Hq].
    apply andb_true_iff in H as [Hdot Hsp].
    apply negb_true_iff in Hdot, Hsp.
    rewrite Hdot, Hsp, (IH Hq). reflexivity.
Qed.

Lemma match_here_literals (ic : bool) (q s : string) :
  Re.match_here ic (literals q) s
  = Str.prefixb (fold_case ic q) (fold_case ic s).
Proof.
  revert s. induction q as [| c q IH]; intros s.
  - destruct ic; reflexivity.
  - destruct s as [| d s].
    + destruct ic; reflexivity.
    + specialize (IH s). destruct ic; simpl in *; rewrite IH; reflexivity.
Qed.

Lemma search_literals (ic : bool) (q s : string) :
  Re.search ic (literals q) s
  = Str.contains (fold_case ic q) (fold_case ic s).
Proof.
  induction s as [| d s IH].
  - simpl. rewrite match_here_literals. destruct ic; reflexivity.
  - cbn [Re.search]. rewrite match_here_literals, IH.
    destruct ic; reflexivity.
Qed.

Lemma str_contains_plain (q : string) (case : bool) (column : list string) :
  plain q = true ->
  str_contains q case column
  = Ok (map (fun s => Str.contains (fold_case (negb case) q)
                                   (fold_case (negb case) s)) column).
Proof.
  intros H. unfold str_contains. rewrite (compile_plain q H).
  f_equal. apply map_ext. intros s. apply search_literals.
Qed.

Lemma select_map (p : row -> bool) (df : list row) :
  select df (map p df) = List.filter p df.
Proof.
  induction df as [| r df IH]; simpl; [reflexivity |].
  rewrite IH. reflexivity.
Qed.

Lemma mask_or_map {A : Type} (p q : A -> bool) (l : list A) :
  mask_or (map p l) (map q l) = map (fun x => p x || q x) l.
Proof.
  induction l as [| x l IH]; simpl; [reflexivity | now rewrite IH].
Qed.

(** ** The filters and the statistics *)

Lemma filter_filter (p q : row -> bool) (l : list row) :
  List.filter q (List.filter p l) = List.filter (fun r => p r && q r) l.
Proof.
  induction l as [| r l IH]; simpl; [reflexivity |].
  destruct (p r); simpl; [destruct (q r) |]; rewrite IH; reflexivity.
Qed.

Lemma filter_true (p : row -> bool) (l : list row) :
  (forall r, p r = true) -> List.filter p l = l.
Proof.
  intros H. induction l as [| r l IH]; simpl; [reflexivity |].
  rewrite H, IH. reflexivity.
Qed.

(** On plain search texts the filters of the page are those of the
    specification. *)
Lemma apply_filters_plain (df : list row) (q f : string) :
  plain q = true -> apply_filters df q f = Ok (spec_filter df q f).
Proof.
  intros Hq. unfold apply_filters, spec_filter.
  assert (Hs : (if Str.truthy q then
                  rbind (str_contains q false (map Company_Name df)) (fun m1 =>
                  rbind (str_contains q false (map Job_Title df)) (fun m2 =>
                  Ok (select df (mask_or m1 m2))))
                else Ok df)
               = Ok (List.filter
                       (fun r => negb (Str.truthy q) || matches_search q r) df)).
  { destruct (Str.truthy q) eqn:Ht.
    - rewrite !str_contains_plain by assumption. simpl.
      rewrite !map_map, mask_or_map, select_map. reflexivity.
    - simpl. rewrite filter_true; [reflexivity | intros r; reflexivity]. }
  rewrite Hs. simpl. unfold status_is.
  destruct (String.eqb f "All") eqn:Hf; simpl.
  - f_equal. apply filter_ext. intros r. unfold keeps. rewrite Hf.
    simpl. rewrite andb_true_r. reflexivity.
  - rewrite select_map, filter_filter. f_equal. apply filter_ext.
    intros r. unfold keeps. rewrite Hf. reflexivity.
Qed.

Lemma statistics_aggregate (df : list row) : statistics df = Ok (aggregate df).
Proof.
  unfold statistics, aggregate, count, status_is.
  rewrite (str_contains_plain "Interview" true) by reflexivity.
  simpl rbind. rewrite map_map, !select_map. reflexivity.
Qed.


(** ** The credential store: login *)

Lemma truthy_true (s : string) : s <> "" -> Str.truthy s = true.
Proof. destruct s; [congruence | reflexivity]. Qed.

Lemma truthy_false (s : string) : Str.truthy s = false -> s = "".
Proof. destruct s; [reflexivity | discriminate]. Qed.

(** C1, amended.  When the username or the password is empty the login
    fails with the "enter both" error and the store is not consulted.  When
    both are non-empty: the login succeeds (the session is logged in as [u]
    and the script reruns) if and only if a record exists for [u] whose
    password field equals the SHA-256 digest of [p]; it fails with the
    invalid-credentials error when no record exists for [u] or the stored
    field differs from the digest; and the password enters the decision
    through its digest only, so two non-empty passwords with one digest are
    treated alike. *)
Theorem login_form_digest (users_file : option users_map) (s : session)
    (u p : string) :
  (Str.truthy u && Str.truthy p = false ->
   login_form u p s users_file
   = (s, Finished (Some EnterBothUsernameAndPassword)))
  /\ (u <> "" -> p <> "" ->
      ((exists rec, load_users users_file !! u = Some rec
                    /\ rec !! "password" = Some (hash_password p))
       <-> (snd (login_form u p s users_file) = Rerun
            /\ logged_in (fst (login_form u p s users_file)) = true
            /\ username (fst (login_form u p s users_file)) = Some u))
      /\ (load_users users_file !! u = None
          \/ (exists rec stored, load_users users_file !! u = Some rec
                /\ rec !! "password" = Some stored
                /\ stored <> hash_password p) ->
          login_form u p s users_file
          = (s, Finished (Some InvalidUsernameOrPassword)))
      /\ (forall p', p' <> "" -> hash_password p' = hash_password p ->
          login_form u p' s users_file = login_form u p s users_file)).
Proof.
  split.
  - intros H. unfold login_form. rewrite H. reflexivity.
  - intros Hu Hp. unfold login_form.
    rewrite (truthy_true u Hu), (truthy_true p Hp). simpl andb. cbv iota.
    split; [| split].
    + split.
      * intros (rec & Hrec & Hpw). rewrite Hrec, Hpw, String.eqb_refl.
        simpl. auto.
      * destruct (load_users users_file !! u) as [rec |] eqn:Hrec.
        -- destruct (rec !! "password") as [stored |] eqn:Hpw.
           ++ destruct (String.eqb stored (hash_password p)) eqn:He.
              ** apply String.eqb_eq in He. subst stored. eauto.
              ** simpl. intros [H _]. discriminate.
           ++ simpl. intros [H _]. discriminate.
        -- simpl. intros [H _]. discriminate.
    + intros [Hnone | (rec & stored & Hrec & Hpw & Hne)].
      * rewrite Hnone. reflexivity.
      * rewrite Hrec, Hpw.
        destruct (String.eqb stored (hash_password p)) eqn:He.
        -- apply String.eqb_eq in He. contradiction.
        -- reflexivity.
    + intros p' Hp' Hh. rewrite (truthy_true p' Hp'), Hh. reflexivity.
Qed.

(** C10.  When the login succeeds, the display name of the session is the
    [display_name] field of the stored record, and it is the username
    itself when the record has no such field; the login succeeds in both
    cases. *)
Theorem login_form_display_name (users_file : option users_map) (s : session)
    (u p : string) (rec : cred) :
  u <> "" -> p <> "" ->
  load_users users_file !! u = Some rec ->
  rec !! "password" = Some (hash_password p) ->
  exists s',
    login_form u p s users_file = (s', Rerun)
    /\ logged_in s' = true
    /\ username s' = Some u
    /\ (forall d, rec !! "display_name" = Some d -> display_name s' = Some d)
    /\ (rec !! "display_name" = None -> display_name s' = Some u).
Proof.
  intros Hu Hp Hrec Hpw. unfold login_form.
  rewrite (truthy_true u Hu), (truthy_true p Hp), Hrec, Hpw, String.eqb_refl.
  simpl. eexists. split; [reflexivity |]. simpl.
  repeat split.
  - intros d Hd. rewrite Hd. reflexivity.
  - intros Hd. rewrite Hd. reflexivity.
Qed.

(** ** The credential store: registration *)

(** The checks of the registration form in their order.  A registration
    with an empty username, display name or password fails as incomplete;
    otherwise one whose confirmation differs from the password fails as a
    mismatch; otherwise one whose password has fewer than 4 characters
    fails as too short; otherwise one whose username exists fails as a
    duplicate.  Every registration that does not create the account leaves
    the credential store as it was. *)
Lemma register_form_failures (users_file : option users_map)
    (u d p c now : string) :
  (u = "" \/ d = "" \/ p = "" ->
   register_form u d p c now users_file = (users_file, FillInAllFields))
  /\ (u <> "" -> d <> "" -> p <> "" -> p <> c ->
      register_form u d p c now users_file = (users_file, PasswordsDoNotMatch))
  /\ (u <> "" -> d <> "" -> p <> "" -> p = c -> String.length p < 4 ->
      register_form u d p c now users_file = (users_file, PasswordTooShort))
  /\ (u <> "" -> d <> "" -> p <> "" -> p = c -> 4 <= String.length p ->
      is_Some (load_users users_file !! u) ->
      register_form u d p c now users_file
      = (users_file, UsernameAlreadyExists))
  /\ (snd (register_form u d p c now users_file) <> AccountCreated ->
      fst (register_form u d p c now users_file) = users_file).
Proof.
  unfold register_form. repeat split.
  - intros [-> | [-> | ->]]; simpl.
    + reflexivity.
    + destruct (Str.truthy u), (Str.truthy p); reflexivity.
    + destruct (Str.truthy u); reflexivity.
  - intros Hu Hd Hp Hc.
    rewrite (truthy_true u Hu), (truthy_true d Hd), (truthy_true p Hp).
    apply String.eqb_neq in Hc. rewrite Hc. reflexivity.
  - intros Hu Hd Hp Hc Hlen.
    rewrite (truthy_true u Hu), (truthy_true d Hd), (truthy_true p Hp).
    subst c. rewrite String.eqb_refl. simpl.
    apply Nat.ltb_lt in Hlen. rewrite Hlen. reflexivity.
  - intros Hu Hd Hp Hc Hlen [rec Hrec].
    rewrite (truthy_true u Hu), (truthy_true d Hd), (truthy_true p Hp).
    subst c. rewrite String.eqb_refl. simpl.
    apply Nat.ltb_ge in Hlen. rewrite Hlen, Hrec. reflexivity.
  - repeat case_match; simpl; congruence.
Qed.

(** A registration that passes every check stores the digest of the
    password, the display name and the time under the new username. *)
Lemma register_form_success (users_file : option users_map)
    (u d p now : string) :
  u <> "" -> d <> "" -> 4 <= String.length p ->
  load_users users_file !! u = None ->
  exists users',
    register_form u d p p now users_file = (Some users', AccountCreated)
    /\ (exists rec, users' !! u = Some rec
                    /\ rec !! "password" = Some (hash_password p)
                    /\ rec !! "display_name" = Some d)
    /\ (forall v, v <> u -> users' !! v = load_users users_file !! v).
Proof.
  intros Hu Hd Hlen Hnew. unfold register_form.
  assert (Hp : p <> "") by (intros ->; simpl in Hlen; lia).
  rewrite (truthy_true u Hu), (truthy_true d Hd), (truthy_true p Hp).
  rewrite String.eqb_refl. simpl.
  apply Nat.ltb_ge in Hlen. rewrite Hlen, Hnew.
  eexists. split; [reflexivity |]. split.
  - eexists. split; [apply lookup_insert_eq |].
    split; [apply lookup_insert_eq |].
    rewrite lookup_insert_ne by discriminate. apply lookup_insert_eq.
  - intros v Hv. apply lookup_insert_ne. congruence.
Qed.

(** ** The main page *)

Lemma init_snapshot_ok (s s1 : session) (fs : data_dir) (df : list row) :
  init_snapshot s fs = Ok (s1, df) ->
  (s1 = s /\ jobs_df s = Some df /\ current_user s = username s)
  \/ (s1 = set_current_user (username s) (set_jobs_df (Some df) s)
      /\ load_data (py_str (username s)) fs = Ok df).
Proof.
  unfold init_snapshot. intros H.
  destruct (jobs_df s) as [df0 |] eqn:Hdf.
  - destruct (decide (current_user s = username s)) as [Hcu | Hcu].
    + injection H as <- <-. left. auto.
    + destruct (load_data (py_str (username s)) fs) as [df1 | e]; simpl in H;
        [| discriminate].
      injection H as <- <-. right. auto.
  - destruct (load_data (py_str (username s)) fs) as [df1 | e]; simpl in H;
      [| discriminate].
    injection H as <- <-. right. auto.
Qed.

Lemma init_snapshot_fields (s s1 : session) (fs : data_dir) (df : list row) :
  init_snapshot s fs = Ok (s1, df) ->
  jobs_df s1 = Some df /\ current_user s1 = username s
  /\ username s1 = username s /\ logged_in s1 = logged_in s
  /\ show_confirm s1 = show_confirm s.
Proof.
  intros H. apply init_snapshot_ok in H.
  destruct H as [(-> & Hdf & Hcu) | (-> & _)]; simpl; auto.
Qed.

(** A session whose snapshot is that of its user is left as it is. *)
Lemma init_snapshot_ready (s : session) (fs : data_dir) (df : list row) :
  jobs_df s = Some df -> current_user s = username s ->
  init_snapshot s fs = Ok (s, df).
Proof.
  intros Hdf Hcu. unfold init_snapshot. rewrite Hdf.
  destruct (decide (current_user s = username s)); [reflexivity | contradiction].
Qed.

(** A run that shows the page has not touched the snapshot or the files. *)
Lemma main_app_finished (w : widgets) (s s' : session) (fs fs' : data_dir)
    (pg : page) :
  main_app w s fs = (s', fs', Finished pg) ->
  exists s1 df,
    init_snapshot s fs = Ok (s1, df)
    /\ jobs_df s' = Some df
    /\ fs' = fs
    /\ shown_stats pg = aggregate df.
Proof.
  unfold main_app. intros H.
  destruct (button_eqb (clicked w) Logout); [discriminate |].
  destruct (init_snapshot s fs) as [[s1 df] | e] eqn:Hinit; [| discriminate].
  pose proof (init_snapshot_fields _ _ _ _ Hinit) as (Hdf & _).
  exists s1, df. split; [reflexivity |].
  rewrite statistics_aggregate in H.
  repeat case_match; simplify_eq; simpl; auto.
Qed.

(** Let [df] be the snapshot of the session.  Whatever the search text and
    the status filter (and the other widgets) are, a run that shows the
    page shows the statistics of the whole of [df]: the number of its
    records, of those whose status contains "Interview", of those whose
    status is "Offer Received" and of those whose status is "Applied"; the
    snapshot is still [df] afterwards.  With no button pressed and a plain
    search text the page is shown. *)
Lemma statistics_unfiltered (s s1 : session) (fs : data_dir) (df : list row) :
  init_snapshot s fs = Ok (s1, df) ->
  (forall w s' fs' pg,
     main_app w s fs = (s', fs', Finished pg) ->
     shown_stats pg = aggregate df /\ jobs_df s' = Some df)
  /\ (forall w,
        clicked w = NoButton -> plain (search_query w) = true ->
        exists pg,
          main_app w s fs = (s1, fs, Finished pg)
          /\ shown_stats pg = aggregate df).
Proof.
  intros Hinit. split.
  - intros w s' fs' pg H.
    apply main_app_finished in H as (s1' & df' & Hinit' & Hdf & _ & Hst).
    rewrite Hinit in Hinit'. injection Hinit' as <- <-. auto.
  - intros w Hc Hq. unfold main_app.
    rewrite Hc, Hinit, (apply_filters_plain df _ _ Hq), statistics_aggregate.
    simpl.
    destruct (spec_filter df (search_query w) (status_filter w)) as [| r l].
    + eexists. split; reflexivity.
    + destruct (show_confirm s1); eexists; split; reflexivity.
Qed.

(** ** The filters *)

(** With an empty search text and the "All" choice the table is the
    snapshot itself. *)
Lemma apply_filters_nothing (df : list row) : apply_filters df "" "All" = Ok df.
Proof. reflexivity. Qed.

(** C4 at the search text ".": the page keeps the record of Acme, although
    neither "Acme" nor "Engineer" contains a full stop; the filter of the
    specification keeps nothing. *)
Theorem apply_filters_full_stop :
  apply_filters [acme] "." "All" = Ok [acme]
  /\ matches_search "." acme = false
  /\ spec_filter [acme] "." "All" = [].
Proof. repeat split; reflexivity. Qed.

(** ** Saving the edited table *)


(** ** Clearing all records *)



(** ** Persistence *)

(** Whatever a run does to the files is one save for the current user. *)
Lemma main_app_files (w : widgets) (s s' : session) (fs fs' : data_dir)
    (e : ending page) :
  main_app w s fs = (s', fs', e) ->
  fs' = fs
  \/ exists df, fs' = save_data (py_str (username s)) df fs
                /\ jobs_df s' = Some df /\ e = Rerun.
Proof.
  unfold main_app.
  repeat case_match; intros; simplify_eq; simpl; eauto.
Qed.

Lemma main_app_mutation (w : widgets) (s s' : session) (fs fs' : data_dir) :
  mutating (clicked w) = true ->
  main_app w s fs = (s', fs', Rerun) ->
  exists df, jobs_df s' = Some df
             /\ fs' = save_data (py_str (username s)) df fs.
Proof.
  intros Hm. unfold main_app.
  destruct (clicked w); try discriminate; simpl;
    repeat case_match; intros; simplify_eq; simpl; eauto.
Qed.

(** ** Separation of the users *)

(** C6.  For distinct usernames [u1] and [u2]: no sequence of saves for [u1]
    changes what is loaded for [u2], and no run of the main page in a
    session of [u1] does. *)
Theorem users_do_not_interfere (u1 u2 : string) :
  u1 <> u2 ->
  (forall (dfs : list (list row)) (fs : data_dir),
     load_data u2 (fold_left (fun f df => save_data u1 df f) dfs fs)
     = load_data u2 fs)
  /\ (forall w s s' fs fs' e,
        username s = Some u1 ->
        main_app w s fs = (s', fs', e) ->
        load_data u2 fs' = load_data u2 fs).
Proof.
  intros Hne. split.
  - intros dfs. induction dfs as [| df dfs IH]; intros fs; simpl.
    + reflexivity.
    + rewrite IH. apply load_data_save_data_ne. exact Hne.
  - intros w s s' fs fs' e Hu H.
    apply main_app_files in H as [-> | (df & -> & _)]; [reflexivity |].
    rewrite Hu. simpl. apply load_data_save_data_ne. exact Hne.
Qed.

(** ** The snapshot belongs to the user of the session *)

Lemma owned_new (fs : data_dir) : owned new_session fs.
Proof. split; simpl; [discriminate | intros df H; discriminate]. Qed.

Lemma login_form_owned (u p : string) (s s' : session)
    (uf : option users_map) (fs : data_dir) (e : ending (option message)) :
  logged_in s = false -> owned s fs ->
  login_form u p s uf = (s', e) -> owned s' fs.
Proof.
  intros Hout [Hn Ho] H.
  assert (Hdf : jobs_df s = None).
  { destruct (jobs_df s) as [df |] eqn:Hdf; [| reflexivity].
    destruct (Ho df eq_refl) as (Hin & _). congruence. }
  unfold login_form in H.
  repeat case_match; simplify_eq; try (split; assumption).
  split; simpl; [eauto | intros df Hs; congruence].
Qed.

Lemma main_app_owned (w : widgets) (s s' : session) (fs fs' : data_dir)
    (e : ending page) :
  logged_in s = true -> owned s fs ->
  main_app w s fs = (s', fs', e) -> owned s' fs'.
Proof.
  intros Hin [Hn Ho]. unfold main_app.
  destruct (button_eqb (clicked w) Logout).
  { intros H. simplify_eq. split; simpl; [discriminate | intros; discriminate]. }
  destruct (init_snapshot s fs) as [[s1 df] | ex] eqn:Hinit.
  2: { intros H. simplify_eq. split; assumption. }
  assert (Hload : load_data (py_str (username s)) fs = Ok df).
  { apply init_snapshot_ok in Hinit as [(_ & Hdf & _) | (_ & Hl)];
      [apply (Ho df Hdf) | exact Hl]. }
  destruct (init_snapshot_fields _ _ _ _ Hinit) as (Hdf1 & Hcu1 & Hu1 & Hin1 & _).
  assert (Hown : forall b df' fs',
             load_data (py_str (username s)) fs' = Ok df' ->
             owned (set_show_confirm b (set_jobs_df (Some df') s1)) fs').
  { intros b df' fs0 Hl. split; simpl.
    - rewrite Hin1, Hu1. exact Hn.
    - intros df0 H0. simplify_eq. rewrite Hin1, Hcu1, Hu1. auto. }
  assert (Hown1 : forall b, owned (set_show_confirm b s1) fs).
  { intros b. split; simpl.
    - rewrite Hin1, Hu1. exact Hn.
    - intros df0 H0. rewrite Hdf1 in H0. simplify_eq.
      rewrite Hin1, Hcu1, Hu1. auto. }
  assert (Hs1 : owned s1 fs).
  { destruct s1. apply (Hown1 show_confirm0). }
  assert (Hset : forall df' fs',
             load_data (py_str (username s)) fs' = Ok df' ->
             owned (set_jobs_df (Some df') s1) fs').
  { intros df' fs0 Hl. destruct s1. apply (Hown show_confirm0 df' fs0 Hl). }
  repeat case_match; intros; simplify_eq;
    auto using load_data_save_data.
  destruct s1.
  exact (Hown false [] _ (load_data_save_data _ _ _)).
Qed.

Lemma reachable_play (users0 : option users_map) (files0 : data_dir)
    (story : list input) (a : app) :
  reachable users0 files0 a -> reachable users0 files0 (play story a).
Proof.
  revert a. induction story as [| i story IH]; intros a Hr; simpl.
  - exact Hr.
  - apply IH. apply reach_step. exact Hr.
Qed.


(** * Further properties of the code *)

(** ** The digest *)

Lemma hex_of_length (n : nat) (x : Z) : String.length (Sha256.hex_of n x) = n.
Proof.
  revert x. induction n as [| n IH]; intros x; cbn [Sha256.hex_of].
  - reflexivity.
  - rewrite length_append, IH. simpl. lia.
Qed.

Lemma zip_add_length (xs ys : list Z) :
  length xs = 8 -> length ys = 8 -> length (Sha256.zip_add xs ys) = 8.
Proof.
  intros Hx Hy.
  do 9 (destruct xs as [| ? xs]; try discriminate).
  do 9 (destruct ys as [| ? ys]; try discriminate).
  reflexivity.
Qed.

Lemma round_length (st : list Z) (kw : Z * Z) :
  length st = 8 -> length (Sha256.round st kw) = 8.
Proof.
  intros H. do 9 (destruct st as [| ? st]; try discriminate). reflexivity.
Qed.

Lemma rounds_length (kws : list (Z * Z)) (st : list Z) :
  length st = 8 -> length (fold_left Sha256.round kws st) = 8.
Proof.
  revert st. induction kws as [| kw kws IH]; intros st H; simpl.
  - exact H.
  - apply IH, round_length, H.
Qed.

Lemma compress_length (h block : list Z) :
  length h = 8 -> length (Sha256.compress h block) = 8.
Proof.
  intros H. unfold Sha256.compress.
  apply zip_add_length; [exact H | apply rounds_length, H].
Qed.

Lemma digest_words_length (msg : list Z) :
  length (Sha256.digest_words msg) = 8.
Proof.
  unfold Sha256.digest_words.
  generalize (Sha256.blocks (length (Sha256.pad msg)) (Sha256.pad msg)).
  intros bs.
  assert (H : length Sha256.H0 = 8) by (vm_compute; reflexivity).
  revert H. generalize Sha256.H0.
  induction bs as [| b bs IH]; intros h H; simpl.
  - exact H.
  - apply IH, compress_length, H.
Qed.

Lemma hash_password_length (p : string) : String.length (hash_password p) = 64.
Proof.
  unfold hash_password, Sha256.hexdigest.
  pose proof (digest_words_length (encode p)) as H.
  destruct (Sha256.digest_words (encode p)) as [| w ws]; [discriminate |].
  do 8 (destruct ws as [| ? ws]; try discriminate).
  cbn [fold_right]. rewrite !length_append, !hex_of_length. reflexivity.
Qed.

Lemma chars_append (a b : string) : chars (a +:+ b) = (chars a ++ chars b)%list.
Proof. induction a as [| c a IH]; simpl; [reflexivity | now rewrite IH]. Qed.

Lemma hex_digit_hex (x : Z) :
  (0 <= x < 16)%Z -> Str.mem (Sha256.hex_digit x) "0123456789abcdef" = true.
Proof.
  intros H.
  assert (Hc : (x = 0 \/ x = 1 \/ x = 2 \/ x = 3 \/ x = 4 \/ x = 5 \/ x = 6
                \/ x = 7 \/ x = 8 \/ x = 9 \/ x = 10 \/ x = 11 \/ x = 12
                \/ x = 13 \/ x = 14 \/ x = 15)%Z) by lia.
  repeat (destruct Hc as [-> | Hc]; [reflexivity |]).
  subst x. reflexivity.
Qed.

Lemma hex_of_hex (n : nat) (x : Z) :
  Forall (fun c => Str.mem c "0123456789abcdef" = true) (chars (Sha256.hex_of n x)).
Proof.
  revert x. induction n as [| n IH]; intros x; cbn [Sha256.hex_of].
  - constructor.
  - rewrite chars_append. apply Forall_app. split; [apply IH |].
    simpl. constructor; [| constructor].
    apply hex_digit_hex. apply Z.mod_pos_bound. lia.
Qed.

(** X1.  Whatever the password, its digest is a text of 64 characters, each
    one of 0-9 and a-f. *)
Theorem hash_password_hex (p : string) :
  String.length (hash_password p) = 64
  /\ Forall (fun c => Str.mem c "0123456789abcdef" = true)
            (chars (hash_password p)).
Proof.
  split; [apply hash_password_length |].
  unfold hash_password, Sha256.hexdigest.
  induction (Sha256.digest_words (encode p)) as [| w ws IH]; cbn [fold_right].
  - constructor.
  - rewrite chars_append. apply Forall_app. split; [apply hex_of_hex | exact IH].
Qed.

(** ** Registration and login together *)

Lemma login_form_ext (u p : string) (s : session) (uf1 uf2 : option users_map) :
  load_users uf1 !! u = load_users uf2 !! u ->
  login_form u p s uf1 = login_form u p s uf2.
Proof. intros H. unfold login_form. rewrite H. reflexivity. Qed.

Lemma register_form_store (uf : option users_map) (u d p c now : string) :
  fst (register_form u d p c now uf) = uf
  \/ (load_users uf !! u = None
      /\ u <> "" /\ d <> "" /\ p = c /\ 4 <= String.length p
      /\ fst (register_form u d p c now uf)
         = Some (<[u := <["password" := hash_password p]>
                          (<["display_name" := d]> {["created_at" := now]})]>
                   (load_users uf))).
Proof.
  unfold register_form.
  destruct (Str.truthy u) eqn:Hu; [| left; reflexivity].
  destruct (Str.truthy p) eqn:Hp; [| left; reflexivity].
  destruct (Str.truthy d) eqn:Hd; [| left; reflexivity].
  simpl.
  destruct (String.eqb p c) eqn:Hc; [| left; reflexivity].
  simpl.
  destruct (String.length p <? 4) eqn:Hlen; [left; reflexivity |].
  destruct (load_users uf !! u) as [rec |] eqn:Hrec; [left; reflexivity |].
  right. apply String.eqb_eq in Hc. apply Nat.ltb_ge in Hlen.
  repeat split; try assumption.
  - intros ->. discriminate.
  - intros ->. discriminate.
Qed.

(** X2.  A registration that passes the checks can be used at once: the
    login with the same username and password succeeds, whatever the
    session was, and the display name of the session is the one that was
    registered. *)
Theorem register_then_login (uf : option users_map) (s : session)
    (u d p now : string) :
  u <> "" -> d <> "" -> 4 <= String.length p ->
  load_users uf !! u = None ->
  snd (register_form u d p p now uf) = AccountCreated
  /\ login_form u p s (fst (register_form u d p p now uf))
     = (mk_session true (Some u) (Some d) (jobs_df s) (current_user s)
                   (show_confirm s), Rerun).
Proof.
  intros Hu Hd Hlen Hnew.
  destruct (register_form_success uf u d p now Hu Hd Hlen Hnew)
    as (users' & Hreg & (rec & Hrec & Hpw & Hdn) & _).
  rewrite Hreg. simpl. split; [reflexivity |].
  assert (Hp : p <> "") by (intros ->; simpl in Hlen; lia).
  unfold login_form.
  rewrite (truthy_true u Hu), (truthy_true p Hp). simpl.
  rewrite Hrec, Hpw, String.eqb_refl, Hdn. reflexivity.
Qed.

Lemma register_form_lookup (uf : option users_map) (u d p c now v : string)
    (rec : cred) :
  load_users uf !! v = Some rec ->
  load_users (fst (register_form u d p c now uf)) !! v = Some rec.
Proof.
  intros Hv.
  destruct (register_form_store uf u d p c now)
    as [-> | (Hnew & _ & _ & _ & _ & ->)]; [exact Hv |].
  simpl. rewrite lookup_insert_ne; [exact Hv |]. intros ->. congruence.
Qed.

(** X3.  No registration, accepted or refused, changes or removes a record
    that the credential store holds: the record of every existing user is
    the same afterwards, and every login of such a user has the outcome it
    had before. *)
Theorem register_form_keeps_records (uf : option users_map)
    (u d p c now v : string) (rec : cred) :
  load_users uf !! v = Some rec ->
  load_users (fst (register_form u d p c now uf)) !! v = Some rec
  /\ (forall q s,
        login_form v q s (fst (register_form u d p c now uf))
        = login_form v q s uf).
Proof.
  intros Hv.
  pose proof (register_form_lookup uf u d p c now v rec Hv) as H.
  split; [exact H |].
  intros q s. apply login_form_ext. rewrite H, Hv. reflexivity.
Qed.

(** X4.  A login that does not succeed leaves the session as it was,
    whatever the reason.  A stored record that has no password field makes
    every login under its username, with any non-empty password, raise
    [KeyError]. *)
Theorem login_form_failure (uf : option users_map) (s : session) (u p : string) :
  (forall s' e, login_form u p s uf = (s', e) -> e <> Rerun -> s' = s)
  /\ (forall rec, u <> "" -> p <> "" ->
        load_users uf !! u = Some rec -> rec !! "password" = None ->
        login_form u p s uf = (s, Raised KeyError)).
Proof.
  split.
  - intros s' e H Hne. unfold login_form in H.
    repeat case_match; simplify_eq; congruence.
  - intros rec Hu Hp Hrec Hpw. unfold login_form.
    rewrite (truthy_true u Hu), (truthy_true p Hp), Hrec, Hpw. reflexivity.
Qed.

(** ** What every reachable state satisfies *)

Lemma main_app_identity (w : widgets) (s s' : session) (fs fs' : data_dir)
    (e : ending page) :
  main_app w s fs = (s', fs', e) ->
  (clicked w = Logout /\ s' = logged_out s /\ fs' = fs /\ e = Rerun)
  \/ (logged_in s' = logged_in s /\ username s' = username s
      /\ display_name s' = display_name s).
Proof.
  unfold main_app.
  destruct (clicked w) eqn:Hc; simpl.
  2: { intros H. simplify_eq. left. auto. }
  all: destruct (init_snapshot s fs) as [[s1 df] | ex] eqn:Hinit;
    [| intros H; simplify_eq; right; auto].
  all: apply init_snapshot_ok in Hinit as [(-> & _) | (-> & _)].
  all: repeat case_match; intros; simplify_eq; right; simpl; auto.
Qed.

Lemma login_form_success (u p : string) (s s' : session) (uf : option users_map) :
  login_form u p s uf = (s', Rerun) ->
  u <> "" /\ is_Some (load_users uf !! u)
  /\ logged_in s' = true /\ username s' = Some u /\ is_Some (display_name s')
  /\ jobs_df s' = jobs_df s /\ show_confirm s' = show_confirm s.
Proof.
  unfold login_form. intros H.
  destruct (Str.truthy u) eqn:Hu; [| discriminate].
  repeat case_match; simplify_eq. simpl.
  repeat split; eauto. intros ->. discriminate.
Qed.

(** X5.  In every state the application reaches from a fresh session, a
    logged-in session has a non-empty username that is a key of the
    credential store, and a display name; a session that is not logged in
    has no username, no display name and no snapshot. *)
Theorem session_consistent (users0 : option users_map) (files0 : data_dir)
    (a : app) :
  reachable users0 files0 a ->
  (logged_in (sess a) = true ->
   exists u, username (sess a) = Some u /\ u <> ""
             /\ is_Some (load_users (users_file a) !! u)
             /\ is_Some (display_name (sess a)))
  /\ (logged_in (sess a) = false ->
      username (sess a) = None /\ display_name (sess a) = None
      /\ jobs_df (sess a) = None).
Proof.
  intros Hr. induction Hr as [| i a Hr [IHin IHout]].
  - split; simpl; [discriminate | auto].
  - unfold main. destruct (logged_in (sess a)) eqn:Hin.
    + destruct (main_app (on_main i) (sess a) (files a)) as [[s f] e] eqn:H.
      simpl. apply main_app_identity in H
        as [(_ & -> & _) | (Hl & Hu & Hd)].
      * split; simpl; [discriminate | auto].
      * rewrite Hl, Hu, Hd, Hin. split; [auto | discriminate].
    + destruct (IHout eq_refl) as (Hu & Hd & Hj).
      destruct (login_page (on_login i) (sess a) (users_file a))
        as [[s uf] e] eqn:H.
      simpl. unfold login_page in H.
      destruct (on_login i) as [| un pw | un dn pw cf now].
      * simplify_eq. rewrite Hin. split; [discriminate | auto].
      * destruct (login_form un pw (sess a) (users_file a)) as [s0 e0] eqn:Hl.
        simplify_eq.
        assert (Hfail : e <> Rerun -> s = sess a).
        { intros Hne. unfold login_form in Hl.
          repeat case_match; simplify_eq; congruence. }
        destruct e as [| pg | ex].
        -- apply login_form_success in Hl
             as (Hun & Hrec & Hl1 & Hl2 & Hl3 & _).
           rewrite Hl1. split; [| discriminate]. intros _. eauto.
        -- rewrite Hfail by discriminate. rewrite Hin.
           split; [discriminate | auto].
        -- rewrite Hfail by discriminate. rewrite Hin.
           split; [discriminate | auto].
      * destruct (register_form un dn pw cf now (users_file a)).
        simplify_eq. rewrite Hin. split; [discriminate | auto].
Qed.

Lemma main_users_file (i : input) (a : app) :
  users_file (main i a) = users_file a
  \/ exists u d p c now,
       users_file (main i a) = fst (register_form u d p c now (users_file a)).
Proof.
  unfold main. destruct (logged_in (sess a)).
  - destruct (main_app (on_main i) (sess a) (files a)) as [[s f] e].
    left. reflexivity.
  - unfold login_page. destruct (on_login i) as [| un pw | un dn pw cf now].
    + left. reflexivity.
    + destruct (login_form un pw (sess a) (users_file a)). left. reflexivity.
    + destruct (register_form un dn pw cf now (users_file a)) as [f m] eqn:H.
      right. exists un, dn, pw, cf, now. rewrite H. reflexivity.
Qed.

(** X6.  The credential store only grows: a record that the store held
    when the session began is held unchanged in every state the application
    reaches, whatever is registered meanwhile. *)
Theorem credentials_are_kept (users0 : option users_map) (files0 : data_dir)
    (a : app) (v : string) (rec : cred) :
  reachable users0 files0 a ->
  load_users users0 !! v = Some rec ->
  load_users (users_file a) !! v = Some rec.
Proof.
  intros Hr Hv. induction Hr as [| i a Hr IH].
  - exact Hv.
  - destruct (main_users_file i a) as [-> | (u & d & p & c & now & ->)].
    + exact IH.
    + apply register_form_lookup. exact IH.
Qed.

Lemma registered_empty : registered ∅.
Proof. intros v rec H. rewrite lookup_empty in H. discriminate. Qed.

Lemma register_form_registered (uf : option users_map) (u d p c now : string) :
  registered (load_users uf) ->
  registered (load_users (fst (register_form u d p c now uf))).
Proof.
  intros Hreg.
  destruct (register_form_store uf u d p c now)
    as [-> | (Hnew & Hu & Hd & _ & _ & ->)]; [exact Hreg |].
  simpl. intros v rec Hv.
  destruct (decide (u = v)) as [<- | Hne].
  - rewrite lookup_insert_eq in Hv. simplify_eq.
    split; [exact Hu |]. split; [| split].
    + exists (hash_password p). split; [apply lookup_insert_eq |].
      apply hash_password_length.
    + rewrite lookup_insert_ne by discriminate.
      rewrite lookup_insert_eq. eauto.
    + rewrite lookup_insert_ne by discriminate.
      rewrite lookup_insert_ne by discriminate.
      rewrite lookup_singleton_eq. eauto.
  - rewrite lookup_insert_ne in Hv by exact Hne. exact (Hreg v rec Hv).
Qed.

(** X7.  When the credential store at the start holds only records as the
    registration form writes them (the absent or empty file among them),
    so does the store of every reachable state; and then no login raises
    [KeyError]. *)
Theorem store_stays_registered (users0 : option users_map) (files0 : data_dir)
    (a : app) :
  registered (load_users users0) ->
  reachable users0 files0 a ->
  registered (load_users (users_file a))
  /\ (forall u p s, snd (login_form u p s (users_file a)) <> Raised KeyError).
Proof.
  intros H0 Hr.
  assert (Hreg : registered (load_users (users_file a))).
  { induction Hr as [| i a Hr IH]; [exact H0 |].
    destruct (main_users_file i a) as [-> | (u & d & p & c & now & ->)].
    - exact IH.
    - apply register_form_registered. exact IH. }
  split; [exact Hreg |].
  intros u p s. unfold login_form.
  destruct (Str.truthy u && Str.truthy p); [| discriminate].
  destruct (load_users (users_file a) !! u) as [rec |] eqn:Hrec; [| discriminate].
  destruct (Hreg u rec Hrec) as (_ & (h & Hh & _) & _). rewrite Hh.
  destruct (String.eqb h (hash_password p)); discriminate.
Qed.

(** ** The main page, branch by branch *)

(** X10.  While the stored collection of the user cannot be loaded, no run
    of the main page of a session without snapshot gets past the loading:
    whatever is pressed except "Logout", the run ends with the exception
    and changes neither the session nor the files; "Logout" still works. *)
Theorem main_app_unloadable (w : widgets) (s : session) (fs : data_dir) (e : exn) :
  jobs_df s = None ->
  load_data (py_str (username s)) fs = Raise e ->
  (clicked w <> Logout -> main_app w s fs = (s, fs, Raised e))
  /\ (clicked w = Logout -> main_app w s fs = (logged_out s, fs, Rerun)).
Proof.
  intros Hdf Hl. unfold main_app, init_snapshot. rewrite Hdf, Hl. simpl.
  split.
  - intros Hc. destruct (clicked w); try reflexivity. contradiction.
  - intros ->. reflexivity.
Qed.

(** X11.  The add form submitted without a company name or without a job
    title adds nothing: the snapshot and the files stay as they are, the
    script does not rerun, and a page that is shown carries the "fill in"
    error; with a plain search text the page is shown. *)
Theorem add_form_incomplete (w : widgets) (s s1 : session) (fs : data_dir)
    (df : list row) :
  clicked w = AddApplication ->
  company_name w = "" \/ job_title w = "" ->
  init_snapshot s fs = Ok (s1, df) ->
  (forall s' fs' e,
     main_app w s fs = (s', fs', e) ->
     s' = s1 /\ fs' = fs /\ e <> Rerun
     /\ (forall pg, e = Finished pg -> shown_error pg = Some FillInCompanyAndTitle))
  /\ (plain (search_query w) = true ->
      exists pg, main_app w s fs = (s1, fs, Finished pg)).
Proof.
  intros Hc Hempty Hinit.
  assert (Ht : Str.truthy (company_name w) && Str.truthy (job_title w) = false).
  { destruct Hempty as [-> | ->]; [reflexivity | apply andb_false_r]. }
  unfold main_app. rewrite Hc, Hinit, statistics_aggregate. simpl.
  rewrite Ht. split.
  - intros s' fs' e H.
    repeat case_match; simplify_eq; repeat split; try discriminate;
      intros pg Hpg; simplify_eq; reflexivity.
  - intros Hq. rewrite (apply_filters_plain _ _ _ Hq).
    repeat case_match; eauto.
Qed.


(** X13.  A request to clear all records outlives the session of the user
    who made it: "Logout" and the next login leave the request pending, and
    the first page of the user who logs in next, when it shows records,
    shows the confirmation dialog. *)
Theorem pending_request_outlives_logout (wl : widgets) (s s2 : session)
    (fs : data_dir) (uf : option users_map) (u p : string) :
  show_confirm s = true ->
  clicked wl = Logout ->
  login_form u p (fst (fst (main_app wl s fs))) uf = (s2, Rerun) ->
  show_confirm s2 = true
  /\ (forall w df r rest,
        clicked w = NoButton ->
        load_data u fs = Ok df ->
        apply_filters df (search_query w) (status_filter w) = Ok (r :: rest) ->
        exists s3 pg,
          main_app w s2 fs = (s3, fs, Finished pg)
          /\ jobs_df s3 = Some df
          /\ shown_confirm pg = true).
Proof.
  intros Hsc Hlo Hlogin.
  assert (Hout : fst (fst (main_app wl s fs)) = logged_out s).
  { unfold main_app. rewrite Hlo. reflexivity. }
  rewrite Hout in Hlogin.
  apply login_form_success in Hlogin as (_ & _ & _ & Hu & _ & Hdf & Hsc2).
  simpl in Hdf, Hsc2. rewrite Hsc in Hsc2.
  split; [exact Hsc2 |].
  intros w df r rest Hc Hload Hf.
  assert (Hinit : init_snapshot s2 fs
                  = Ok (set_current_user (Some u) (set_jobs_df (Some df) s2), df)).
  { unfold init_snapshot. rewrite Hdf, Hu. simpl. rewrite Hload. reflexivity. }
  unfold main_app.
  rewrite Hc, Hinit, Hf, statistics_aggregate. simpl. rewrite Hsc2.
  eexists _, _. split; [reflexivity |]. split; reflexivity.
Qed.

(** X14.  While the table is empty (an empty collection, or a filter that
    hides every record) the editor and the buttons under it do not exist:
    a run in which "Save Changes", "Clear All", "Yes, Delete All" or
    "Cancel" is taken to be pressed shows the page without table and
    without dialog, and changes nothing, a pending request included. *)
Theorem empty_table_is_inert (w : widgets) (s s1 : session) (fs : data_dir)
    (df : list row) :
  init_snapshot s fs = Ok (s1, df) ->
  apply_filters df (search_query w) (status_filter w) = Ok [] ->
  clicked w = NoButton \/ table_button (clicked w) = true ->
  exists pg,
    main_app w s fs = (s1, fs, Finished pg)
    /\ shown_table pg = [] /\ shown_confirm pg = false
    /\ shown_stats pg = aggregate df.
Proof.
  intros Hinit Hf Hb. unfold main_app.
  rewrite Hinit, Hf, statistics_aggregate.
  destruct Hb as [-> | Hb].
  - simpl. eexists. repeat split.
  - destruct (clicked w); try discriminate; simpl; eexists; repeat split.
Qed.

(** ** The statistics *)

Lemma filter_length_cons (p : row -> bool) (r : row) (l : list row) :
  length (List.filter p (r :: l)) = Nat.b2n (p r) + length (List.filter p l).
Proof. simpl. destruct (p r); reflexivity. Qed.

Lemma status_classes (s : string) :
  Nat.b2n (Str.contains "Interview" s)
  + Nat.b2n (String.eqb s "Offer Received")
  + Nat.b2n (String.eqb s "Applied") <= 1.
Proof.
  destruct (String.eqb s "Offer Received") eqn:Ho.
  { apply String.eqb_eq in Ho. subst s. simpl. lia. }
  destruct (String.eqb s "Applied") eqn:Ha.
  { apply String.eqb_eq in Ha. subst s. simpl. lia. }
  destruct (Str.contains "Interview" s); simpl; lia.
Qed.

(** X15.  The three counters beside the total count disjoint sets of
    records: for every snapshot, whatever its statuses, the interviews, the
    offers and the pending applications together are at most the total. *)
Theorem statistics_disjoint (df : list row) (st : stats) :
  statistics df = Ok st ->
  total_apps st = length df
  /\ interview_count st + offers st + pending st <= total_apps st.
Proof.
  rewrite statistics_aggregate. intros H. simplify_eq.
  unfold aggregate, count. cbn [total_apps interview_count offers pending].
  split; [reflexivity |].
  induction df as [| r df IH]; [simpl; lia |].
  rewrite !filter_length_cons. cbn [length].
  pose proof (status_classes (Status r)). lia.
Qed.

(** X16.  On a snapshot whose statuses all belong to [STATUS_OPTIONS], the
    interview counter, which looks for the text "Interview", counts exactly
    the records whose status is "Interview Scheduled" or "Interview Done",
    and the total is the sum of the three counters and of the rejected and
    withdrawn applications. *)
Theorem statistics_on_vocabulary (df : list row) (st : stats) :
  Forall (fun r => In (Status r) STATUS_OPTIONS) df ->
  statistics df = Ok st ->
  interview_count st = count (fun r => interview_status (Status r)) df
  /\ total_apps st
     = interview_count st + offers st + pending st
       + count (fun r => String.eqb (Status r) "Rejected") df
       + count (fun r => String.eqb (Status r) "Withdrawn") df.
Proof.
  intros Hall. rewrite statistics_aggregate. intros H. simplify_eq.
  unfold aggregate, count. cbn [total_apps interview_count offers pending].
  induction Hall as [| r df Hr Hall IH]; [split; reflexivity |].
  rewrite !filter_length_cons. cbn [length].
  destruct IH as [IH1 IH2]. rewrite IH1 in *.
  simpl in Hr.
  destruct Hr as [Hr | [Hr | [Hr | [Hr | [Hr | [Hr | []]]]]]];
    rewrite <- Hr; simpl; lia.
Qed.

(** ** The filters, for every search text *)

Lemma filter_sublist (p : row -> bool) (l : list row) :
  sublist (List.filter p l) l.
Proof.
  induction l as [| r l IH]; simpl; [constructor |].
  destruct (p r); [apply sublist_skip | apply sublist_cons]; exact IH.
Qed.

Lemma filter_idem (p : row -> bool) (l : list row) :
  List.filter p (List.filter p l) = List.filter p l.
Proof.
  induction l as [| r l IH]; simpl; [reflexivity |].
  destruct (p r) eqn:Hp; simpl; [rewrite Hp, IH |]; auto.
Qed.

Lemma str_contains_rowwise (pat : string) (case : bool) :
  (exists g, forall column, str_contains pat case column = Ok (map g column))
  \/ (forall column, str_contains pat case column = Raise ReError).
Proof.
  unfold str_contains.
  destruct (Re.compile pat) as [items |]; [left; eauto |].
  destruct (re_rest pat) as [found |]; [left; eauto | right; auto].
Qed.

(** The filters decide on each row by itself, or fail on every snapshot. *)
Lemma apply_filters_rowwise (q f : string) :
  (exists keep, forall df, apply_filters df q f = Ok (List.filter keep df))
  \/ (forall df, apply_filters df q f = Raise ReError).
Proof.
  unfold apply_filters.
  destruct (Str.truthy q) eqn:Hq.
  - destruct (str_contains_rowwise q false) as [[g Hg] | Hraise].
    + left.
      exists (fun r => (g (Company_Name r) || g (Job_Title r))
                       && (String.eqb f "All" || String.eqb (Status r) f)).
      intros df. rewrite !Hg. simpl.
      rewrite !map_map, mask_or_map, select_map. unfold status_is.
      destruct (String.eqb f "All"); simpl.
      * f_equal. apply filter_ext. intros r. rewrite andb_true_r. reflexivity.
      * rewrite select_map, filter_filter. reflexivity.
    + right. intros df. rewrite Hraise. reflexivity.
  - left.
    exists (fun r => String.eqb f "All" || String.eqb (Status r) f).
    intros df. simpl. unfold status_is.
    destruct (String.eqb f "All"); simpl.
    + rewrite filter_true; [reflexivity | intros r; reflexivity].
    + rewrite select_map. reflexivity.
Qed.

(** X17.  Whatever the search text is and means, a table that the filters
    give is a part of the snapshot in the order of the snapshot: no record
    is invented, repeated or moved; and with a status chosen, every record
    of the table has that status. *)
Theorem apply_filters_sound (df l : list row) (q f : string) :
  apply_filters df q f = Ok l ->
  sublist l df
  /\ length l <= length df
  /\ (f <> "All" -> Forall (fun r => Status r = f) l).
Proof.
  intros H.
  assert (Hsub : sublist l df).
  { destruct (apply_filters_rowwise q f) as [[keep Hk] | Hraise].
    - rewrite Hk in H. simplify_eq. apply filter_sublist.
    - rewrite Hraise in H. discriminate. }
  split; [exact Hsub |]. split; [apply sublist_length, Hsub |].
  intros Hf. apply String.eqb_neq in Hf.
  unfold apply_filters in H. rewrite Hf in H. simpl in H.
  match type of H with
  | rbind ?first _ = _ => destruct first as [filtered | e]
  end; simpl in H; [| discriminate].
  simplify_eq. unfold status_is. rewrite select_map.
  apply Forall_forall. intros r Hr.
  apply list_elem_of_In, filter_In in Hr as [_ Hr]. apply String.eqb_eq. exact Hr.
Qed.

(** X18.  The filters decide on each record by itself: filtering a table
    again with the same search text and status changes nothing, and the
    table of two snapshots put end to end is the two tables put end to
    end (so the table after an added record is the table before, followed
    by the new record when the filters keep it). *)
Theorem apply_filters_row_by_row (q f : string) :
  (forall df l, apply_filters df q f = Ok l -> apply_filters l q f = Ok l)
  /\ (forall df1 df2 l1 l2,
        apply_filters df1 q f = Ok l1 -> apply_filters df2 q f = Ok l2 ->
        apply_filters (df1 ++ df2)%list q f = Ok (l1 ++ l2)%list).
Proof.
  destruct (apply_filters_rowwise q f) as [[keep Hk] | Hraise].
  - split.
    + intros df l H. rewrite Hk in H. simplify_eq.
      rewrite Hk, filter_idem. reflexivity.
    + intros df1 df2 l1 l2 H1 H2. rewrite Hk in H1, H2. simplify_eq.
      rewrite Hk, List.filter_app. reflexivity.
  - split; intros; rewrite Hraise in *; discriminate.
Qed.

Lemma lower_char_idem (c : ascii) :
  Str.lower_char (Str.lower_char c) = Str.lower_char c.
Proof. destruct c as [[] [] [] [] [] [] [] []]; reflexivity. Qed.

Lemma lower_idem (s : string) : Str.lower (Str.lower s) = Str.lower s.
Proof.
  induction s as [| c s IH]; simpl; [reflexivity |].
  rewrite lower_char_idem, IH. reflexivity.
Qed.

Lemma lower_char_plain (c : ascii) :
  negb (Ascii.eqb (Str.lower_char c) "."%char)
  && negb (Str.mem (Str.lower_char c) Re.special)
  = negb (Ascii.eqb c "."%char) && negb (Str.mem c Re.special).
Proof. destruct c as [[] [] [] [] [] [] [] []]; reflexivity. Qed.

Lemma lower_plain (q : string) : plain (Str.lower q) = plain q.
Proof.
  induction q as [| c q IH]; [reflexivity |].
  cbn [Str.lower plain]. rewrite lower_char_plain, IH. reflexivity.
Qed.

Lemma lower_truthy (q : string) : Str.truthy (Str.lower q) = Str.truthy q.
Proof. destruct q; reflexivity. Qed.

(** X20.  The search does not look at letter case: a plain search text
    and any text that differs from it in the case of its letters only give
    the same table on every snapshot; so does the text in small letters. *)
Theorem search_ignores_case (df : list row) (q1 q2 f : string) :
  plain q1 = true ->
  Str.lower q1 = Str.lower q2 ->
  apply_filters df q1 f = apply_filters df q2 f
  /\ apply_filters df (Str.lower q1) f = apply_filters df q1 f.
Proof.
  intros H1 Hl.
  assert (H2 : plain q2 = true).
  { rewrite <- lower_plain, <- Hl, lower_plain. exact H1. }
  assert (H3 : plain (Str.lower q1) = true).
  { rewrite lower_plain. exact H1. }
  rewrite (apply_filters_plain df q1 f H1), (apply_filters_plain df q2 f H2),
    (apply_filters_plain df _ f H3).
  split; f_equal; unfold spec_filter; apply filter_ext; intros r;
    unfold keeps, matches_search.
  - rewrite <- (lower_truthy q1), <- (lower_truthy q2), Hl. reflexivity.
  - rewrite lower_truthy, lower_idem. reflexivity.
Qed.

(** ** Repeating an action *)

(** X21.  A username cannot be taken over by registering it again: after a
    registration that was accepted, every further registration under the
    same username, whatever its display name and password, is refused as a
    duplicate and leaves the store as it is, so the login with the first
    password still succeeds with the first display name. *)
Theorem register_twice (uf : option users_map) (s : session)
    (u d p now d2 p2 now2 : string) :
  u <> "" -> d <> "" -> 4 <= String.length p ->
  load_users uf !! u = None ->
  d2 <> "" -> 4 <= String.length p2 ->
  register_form u d2 p2 p2 now2 (fst (register_form u d p p now uf))
  = (fst (register_form u d p p now uf), UsernameAlreadyExists)
  /\ login_form u p s (fst (register_form u d p p now uf))
     = (mk_session true (Some u) (Some d) (jobs_df s) (current_user s)
                   (show_confirm s), Rerun).
Proof.
  intros Hu Hd Hlen Hnew Hd2 Hlen2.
  destruct (register_form_success uf u d p now Hu Hd Hlen Hnew)
    as (users' & Hreg & (rec & Hrec & Hpw & Hdn) & _).
  rewrite Hreg. simpl.
  assert (Hp : p <> "") by (intros ->; simpl in Hlen; lia).
  assert (Hp2 : p2 <> "") by (intros ->; simpl in Hlen2; lia).
  split.
  - unfold register_form.
    rewrite (truthy_true u Hu), (truthy_true d2 Hd2), (truthy_true p2 Hp2).
    rewrite String.eqb_refl. simpl.
    apply Nat.ltb_ge in Hlen2. rewrite Hlen2, Hrec. reflexivity.
  - unfold login_form.
    rewrite (truthy_true u Hu), (truthy_true p Hp). simpl.
    rewrite Hrec, Hpw, String.eqb_refl, Hdn. reflexivity.
Qed.

Lemma init_snapshot_again (s s1 : session) (fs : data_dir) (df : list row) :
  init_snapshot s fs = Ok (s1, df) -> init_snapshot s1 fs = Ok (s1, df).
Proof.
  intros H.
  destruct (init_snapshot_fields _ _ _ _ H) as (Hdf & Hcu & Hu & _).
  apply init_snapshot_ready; [exact Hdf | congruence].
Qed.

Lemma main_app_no_button (w : widgets) (s s0 s1 : session) (fs : data_dir)
    (df : list row) :
  clicked w = NoButton ->
  init_snapshot s fs = Ok (s1, df) ->
  init_snapshot s0 fs = Ok (s1, df) ->
  main_app w s0 fs = main_app w s fs.
Proof. intros Hc H1 H2. unfold main_app. rewrite Hc, H1, H2. reflexivity. Qed.

Lemma main_app_no_button_state (w : widgets) (s s1 s' : session)
    (fs fs' : data_dir) (df : list row) (e : ending page) :
  clicked w = NoButton ->
  init_snapshot s fs = Ok (s1, df) ->
  main_app w s fs = (s', fs', e) ->
  s' = s1 /\ fs' = fs.
Proof.
  intros Hc Hinit. unfold main_app. rewrite Hc, Hinit. simpl.
  repeat case_match; intros; simplify_eq; auto.
Qed.

(** X22.  Showing the page again is harmless: a run in which no button is
    pressed leaves the files as they are, and the same run repeated on the
    session it leaves gives that session and the same outcome again. *)
Theorem rerun_changes_nothing (w : widgets) (s s' : session) (fs fs' : data_dir)
    (e : ending page) :
  clicked w = NoButton ->
  main_app w s fs = (s', fs', e) ->
  fs' = fs /\ main_app w s' fs = (s', fs, e).
Proof.
  intros Hc H.
  destruct (init_snapshot s fs) as [[s1 df] | ex] eqn:Hinit.
  - destruct (main_app_no_button_state _ _ _ _ _ _ _ _ Hc Hinit H) as [-> ->].
    split; [reflexivity |].
    rewrite (main_app_no_button w s s1 s1 fs df Hc Hinit
               (init_snapshot_again _ _ _ _ Hinit)).
    exact H.
  - unfold main_app in *. rewrite Hc, Hinit in H. simpl in H. simplify_eq.
    split; [reflexivity |]. rewrite Hc, Hinit. reflexivity.
Qed.

(** * The script with the refusals of the operating system *)

(** ** Where the file of the user can be created, nothing differs *)

Lemma load_data_os_creatable (u : string) (fs : data_dir) :
  creatable (get_user_data_file u) = true -> load_data_os u fs = load_data u fs.
Proof.
  intros H. unfold load_data_os, load_data, exists_os. rewrite H. simpl.
  destruct (fs !! get_user_data_file u) as [[| j data] |]; reflexivity.
Qed.

Lemma save_data_os_creatable (u : string) (df : list row) (fs : data_dir) :
  creatable (get_user_data_file u) = true ->
  save_data_os u df fs = Ok (save_data u df fs).
Proof. intros H. unfold save_data_os. rewrite H. reflexivity. Qed.

Lemma save_data_os_refused (u : string) (df : list row) (fs : data_dir) :
  creatable (get_user_data_file u) = false ->
  save_data_os u df fs = Raise (open_error (get_user_data_file u)).
Proof. intros H. unfold save_data_os. rewrite H. reflexivity. Qed.

Lemma save_data_os_ok (u : string) (df : list row) (fs fs' : data_dir) :
  save_data_os u df fs = Ok fs' ->
  creatable (get_user_data_file u) = true /\ fs' = save_data u df fs.
Proof.
  unfold save_data_os.
  destruct (creatable (get_user_data_file u)); intros H; simplify_eq. auto.
Qed.

Lemma save_data_os_raise (u : string) (df : list row) (fs : data_dir) (e : exn) :
  save_data_os u df fs = Raise e ->
  creatable (get_user_data_file u) = false
  /\ e = open_error (get_user_data_file u).
Proof.
  unfold save_data_os.
  destruct (creatable (get_user_data_file u)); intros H; simplify_eq. auto.
Qed.

Lemma init_snapshot_os_creatable (s : session) (fs : data_dir) :
  creatable (get_user_data_file (py_str (username s))) = true ->
  init_snapshot_os s fs = init_snapshot s fs.
Proof.
  intros H. unfold init_snapshot_os, init_snapshot.
  rewrite (load_data_os_creatable _ fs H). reflexivity.
Qed.

(** For a user whose file can be created, the script with the refusals of
    the operating system is the script without them. *)
Lemma main_app_os_creatable (w : widgets) (s : session) (fs : data_dir) :
  creatable (get_user_data_file (py_str (username s))) = true ->
  main_app_os w s fs = main_app w s fs.
Proof.
  intros H. unfold main_app_os, main_app. cbv zeta.
  rewrite (init_snapshot_os_creatable _ _ H), (load_data_os_creatable _ fs H).
  destruct (button_eqb (clicked w) Logout); [reflexivity |].
  destruct (init_snapshot s fs) as [[s1 df] | ex]; [| reflexivity].
  rewrite !(save_data_os_creatable _ _ _ H).
  destruct (button_eqb (clicked w) AddApplication
            && (Str.truthy (company_name w) && Str.truthy (job_title w)));
    [reflexivity |].
  destruct (button_eqb (clicked w) RefreshData); [reflexivity |].
  destruct (apply_filters df (search_query w) (status_filter w))
    as [[| r l] | ex]; try reflexivity.
  rewrite !(save_data_os_creatable _ _ _ H). reflexivity.
Qed.

Lemma init_snapshot_os_ok (s s1 : session) (fs : data_dir) (df : list row) :
  init_snapshot_os s fs = Ok (s1, df) ->
  (s1 = s /\ jobs_df s = Some df /\ current_user s = username s)
  \/ (s1 = set_current_user (username s) (set_jobs_df (Some df) s)
      /\ load_data_os (py_str (username s)) fs = Ok df).
Proof.
  unfold init_snapshot_os. intros H.
  destruct (jobs_df s) as [df0 |] eqn:Hdf.
  - destruct (decide (current_user s = username s)) as [Hcu | Hcu].
    + injection H as <- <-. left. auto.
    + destruct (load_data_os (py_str (username s)) fs) as [df1 | e];
        simpl in H; [| discriminate].
      injection H as <- <-. right. auto.
  - destruct (load_data_os (py_str (username s)) fs) as [df1 | e];
      simpl in H; [| discriminate].
    injection H as <- <-. right. auto.
Qed.

(** ** Saving under a name that is no file name *)

(** What a run does to the files is at most one save for the current user,
    and none when the file of the user cannot be created. *)
Lemma main_app_os_files (w : widgets) (s s' : session) (fs fs' : data_dir)
    (e : ending page) :
  main_app_os w s fs = (s', fs', e) ->
  fs' = fs
  \/ (creatable (get_user_data_file (py_str (username s))) = true
      /\ e = Rerun
      /\ exists df, fs' = save_data (py_str (username s)) df fs
                    /\ jobs_df s' = Some df).
Proof.
  unfold main_app_os.
  repeat case_match; intros; simplify_eq; auto;
    match goal with
    | H : save_data_os _ _ _ = Ok _ |- _ =>
        apply save_data_os_ok in H as [? ->]; right; simpl; eauto
    end.
Qed.

(** X8.  Saving succeeds exactly for the users whose file name can be
    created.  For such a user the save overwrites the file: the collection
    then loads as what was saved, and of two saves only the second is
    left.  For every other user the save raises and stores nothing: a
    submitted add form leaves its row in the snapshot of the session and
    ends with the exception, and no run of the main page changes a file. *)
Theorem save_data_os_outcome (u : string) (fs : data_dir) :
  (creatable (get_user_data_file u) = true ->
   forall df df2,
     save_data_os u df fs = Ok (save_data u df fs)
     /\ load_data_os u (save_data u df fs) = Ok df
     /\ rbind (save_data_os u df fs) (save_data_os u df2)
        = save_data_os u df2 fs)
  /\ (creatable (get_user_data_file u) = false ->
      (forall df, save_data_os u df fs = Raise (open_error (get_user_data_file u)))
      /\ (forall w s s1 df,
            username s = Some u ->
            clicked w = AddApplication ->
            company_name w <> "" -> job_title w <> "" ->
            init_snapshot_os s fs = Ok (s1, df) ->
            main_app_os w s fs
            = (set_jobs_df (Some (df ++ [form_row w])%list) s1, fs,
               Raised (open_error (get_user_data_file u))))
      /\ (forall w s s' fs' e,
            username s = Some u ->
            main_app_os w s fs = (s', fs', e) -> fs' = fs)).
Proof.
  split.
  - intros Hc df df2.
    rewrite !(save_data_os_creatable _ _ _ Hc). simpl.
    rewrite (save_data_os_creatable _ _ _ Hc), (load_data_os_creatable _ _ Hc).
    repeat split.
    + apply load_data_save_data.
    + unfold save_data. rewrite insert_insert_eq. reflexivity.
  - intros Hc. split; [| split].
    + intros df. apply save_data_os_refused, Hc.
    + intros w s s1 df Hu Hadd Hcn Hjt Hinit. unfold main_app_os.
      rewrite Hadd, Hinit, (truthy_true _ Hcn), (truthy_true _ Hjt), Hu.
      simpl. rewrite (save_data_os_refused _ _ _ Hc). reflexivity.
    + intros w s s' fs' e Hu H.
      apply main_app_os_files in H as [-> | (Hok & _)]; [reflexivity |].
      rewrite Hu in Hok. simpl in Hok. congruence.
Qed.

(** ** Persistence *)

Lemma main_app_os_mutation (w : widgets) (s s' : session) (fs fs' : data_dir) :
  mutating (clicked w) = true ->
  main_app_os w s fs = (s', fs', Rerun) ->
  exists df, jobs_df s' = Some df
             /\ creatable (get_user_data_file (py_str (username s))) = true
             /\ fs' = save_data (py_str (username s)) df fs.
Proof.
  intros Hm. unfold main_app_os.
  destruct (clicked w); try discriminate; simpl;
    repeat case_match; intros; simplify_eq;
    match goal with
    | H : save_data_os _ _ _ = Ok _ |- _ =>
        apply save_data_os_ok in H as [? ->]; simpl; eauto
    end.
Qed.

(** C2, amended.  Let the file name of the user be one that the data
    directory can hold (a single path component of at most 255 bytes), and
    let the records carry a date.  Then, after any sequence of runs of the
    main page, a run in which the add form, "Save Changes" or the confirmed
    "Clear All" takes effect leaves a snapshot [df] in the session, and the
    stored collection of the user, loaded anew, is exactly [df]: the same
    records in the same order, dates included.  The add form with a company
    name and a job title appends its row to the snapshot and persists the
    result.  Such a user for whom no file was ever stored loads the empty
    sequence. *)
Theorem mutations_round_trip_os (ws : list widgets) (s : session) (fs : data_dir) :
  let s0 := fst (run_all_os ws s fs) in
  let fs0 := snd (run_all_os ws s fs) in
  creatable (get_user_data_file (py_str (username s0))) = true ->
  (forall w s' fs',
     mutating (clicked w) = true ->
     main_app_os w s0 fs0 = (s', fs', Rerun) ->
     exists df,
       jobs_df s' = Some df
       /\ load_data_os (py_str (username s0)) fs' = Ok df)
  /\ (forall w s1 df,
        clicked w = AddApplication ->
        company_name w <> "" -> job_title w <> "" ->
        init_snapshot_os s0 fs0 = Ok (s1, df) ->
        main_app_os w s0 fs0
        = (set_jobs_df (Some (df ++ [form_row w])%list) s1,
           save_data (py_str (username s0)) (df ++ [form_row w]) fs0, Rerun)
        /\ load_data_os (py_str (username s0))
                        (save_data (py_str (username s0)) (df ++ [form_row w]) fs0)
           = Ok (df ++ [form_row w])%list)
  /\ (forall u,
        creatable (get_user_data_file u) = true ->
        fs0 !! get_user_data_file u = None -> load_data_os u fs0 = Ok []).
Proof.
  intros s0 fs0 Hc. split; [| split].
  - intros w s' fs' Hm H.
    apply main_app_os_mutation in H as (df & Hdf & _ & ->); [| exact Hm].
    exists df. split; [exact Hdf |].
    rewrite (load_data_os_creatable _ _ Hc). apply load_data_save_data.
  - intros w s1 df Hadd Hcn Hjt Hinit.
    rewrite (load_data_os_creatable _ _ Hc).
    split; [| apply load_data_save_data].
    unfold main_app_os.
    rewrite Hadd, Hinit, (truthy_true _ Hcn), (truthy_true _ Hjt). simpl.
    rewrite (save_data_os_creatable _ _ _ Hc). reflexivity.
  - intros u Hu Hnone. rewrite (load_data_os_creatable _ _ Hu).
    unfold load_data. rewrite Hnone. reflexivity.
Qed.

(** ** The snapshot belongs to the user of the session *)

Lemma owned_os_new (fs : data_dir) : owned_os new_session fs.
Proof. split; simpl; [discriminate | intros df H; discriminate]. Qed.

Lemma login_form_owned_os (u p : string) (s s' : session)
    (uf : option users_map) (fs : data_dir) (e : ending (option message)) :
  logged_in s = false -> owned_os s fs ->
  login_form u p s uf = (s', e) -> owned_os s' fs.
Proof.
  intros Hout [Hn Ho] H.
  assert (Hdf : jobs_df s = None).
  { destruct (jobs_df s) as [df |] eqn:Hdf; [| reflexivity].
    destruct (Ho df eq_refl) as (Hin & _). congruence. }
  unfold login_form in H.
  repeat case_match; simplify_eq; try (split; assumption).
  split; simpl; [eauto | intros df Hs; congruence].
Qed.

Lemma main_app_os_owned (w : widgets) (s s' : session) (fs fs' : data_dir)
    (e : ending page) :
  logged_in s = true -> owned_os s fs ->
  main_app_os w s fs = (s', fs', e) -> owned_os s' fs'.
Proof.
  intros Hin Hown0. pose proof Hown0 as [Hn Ho].
  destruct (creatable (get_user_data_file (py_str (username s)))) eqn:Hc.
  - (* the file can be created: the run is that of [main_app] *)
    rewrite (main_app_os_creatable _ _ _ Hc). intros H.
    assert (Hown : owned s fs).
    { split; [exact Hn |]. intros df Hdf.
      destruct (Ho df Hdf) as (? & ? & Hl).
      rewrite <- (load_data_os_creatable _ _ Hc). auto. }
    pose proof (main_app_owned _ _ _ _ _ _ Hin Hown H) as [Hn' Ho'].
    split; [exact Hn' |]. intros df Hdf.
    destruct (Ho' df Hdf) as (? & ? & Hl).
    repeat split; try assumption.
    intros Hc'. rewrite (load_data_os_creatable _ _ Hc'). exact Hl.
  - (* it cannot: nothing is stored, and the name of the user stays *)
    unfold main_app_os.
    destruct (button_eqb (clicked w) Logout).
    { intros H. simplify_eq.
      split; simpl; [discriminate | intros; discriminate]. }
    destruct (init_snapshot_os s fs) as [[s1 df] | ex] eqn:Hinit.
    2: { intros H. simplify_eq. exact Hown0. }
    assert (Hs1 : logged_in s1 = true /\ username s1 = username s
                  /\ current_user s1 = username s /\ jobs_df s1 = Some df).
    { apply init_snapshot_os_ok in Hinit as [(-> & Hdf & Hcu) | (-> & _)];
        simpl; auto. }
    destruct Hs1 as (Hin1 & Hu1 & Hcu1 & Hdf1).
    assert (Hown : forall b df' fs0,
               owned_os (set_show_confirm b (set_jobs_df (Some df') s1)) fs0).
    { intros b df' fs0. split; simpl.
      - intros _. rewrite Hu1. exact (Hn Hin).
      - intros df0 _. rewrite Hcu1, Hu1, Hc. repeat split; [exact Hin1 |].
        discriminate. }
    assert (Hset : forall df' fs0, owned_os (set_jobs_df (Some df') s1) fs0).
    { intros df' fs0. destruct s1. apply (Hown show_confirm0). }
    assert (Hs1 : forall fs0, owned_os s1 fs0).
    { intros fs0. destruct s1. simpl in Hdf1. subst.
      apply (Hown show_confirm0 df). }
    assert (Hflag : forall b fs0, owned_os (set_show_confirm b s1) fs0).
    { intros b fs0. destruct s1. simpl in Hdf1. subst. apply (Hown b df). }
    repeat case_match; intros; simplify_eq; auto.
    all: destruct s1;
      first [exact (Hown false [] _) | exact (Hown true [] _)
            | exact (Hflag false _)].
Qed.

Lemma main_os_owned (i : input) (a : app) :
  owned_os (sess a) (files a) -> owned_os (sess (main_os i a)) (files (main_os i a)).
Proof.
  intros Ho. unfold main_os.
  destruct (logged_in (sess a)) eqn:Hin.
  - destruct (main_app_os (on_main i) (sess a) (files a)) as [[s f] e] eqn:H.
    simpl. exact (main_app_os_owned _ _ _ _ _ _ Hin Ho H).
  - destruct (login_page (on_login i) (sess a) (users_file a))
      as [[s u] e] eqn:H.
    simpl. unfold login_page in H.
    destruct (on_login i) as [| un pw | un dn pw cf now].
    + simplify_eq. exact Ho.
    + destruct (login_form un pw (sess a) (users_file a)) as [s0 e0] eqn:Hl.
      simplify_eq. exact (login_form_owned_os _ _ _ _ _ _ _ Hin Ho Hl).
    + destruct (register_form un dn pw cf now (users_file a)).
      simplify_eq. exact Ho.
Qed.

(** C9, amended.  In every state the application reaches from a fresh
    session, a snapshot held by the session is held by a logged-in session
    and was put there for the user who is logged in ([current_user] is that
    username); when the file of that user can be created, the snapshot is
    moreover the collection that the record store holds for the user.  After
    a login the session has no snapshot, and the first page it shows holds
    the collection loaded from the record store for the username of the
    session: a snapshot of a previous user is never shown to another. *)
Theorem snapshot_of_current_user_os (users0 : option users_map)
    (files0 : data_dir) (a : app) :
  reachable_os users0 files0 a ->
  (forall df,
     jobs_df (sess a) = Some df ->
     exists u,
       logged_in (sess a) = true
       /\ username (sess a) = Some u
       /\ current_user (sess a) = Some u
       /\ (creatable (get_user_data_file u) = true ->
           load_data_os u (files a) = Ok df))
  /\ (logged_in (sess a) = false -> jobs_df (sess a) = None)
  /\ (forall w s' fs' pg,
        logged_in (sess a) = true ->
        jobs_df (sess a) = None ->
        main_app_os w (sess a) (files a) = (s', fs', Finished pg) ->
        exists u df,
          username s' = Some u
          /\ current_user s' = Some u
          /\ jobs_df s' = Some df
          /\ load_data_os u (files a) = Ok df
          /\ shown_stats pg = aggregate df).
Proof.
  intros Hr.
  assert (Ho : owned_os (sess a) (files a)).
  { induction Hr as [| i a Hr IH]; [apply owned_os_new | apply main_os_owned, IH]. }
  destruct Ho as [Hn Ho].
  split; [| split].
  - intros df Hdf.
    destruct (Ho df Hdf) as (Hin & Hcu & Hl).
    destruct (Hn Hin) as [u Hu]. exists u.
    rewrite Hcu, Hu in *. auto.
  - intros Hout. destruct (jobs_df (sess a)) as [df |] eqn:Hdf; [| reflexivity].
    destruct (Ho df eq_refl) as (Hin & _). congruence.
  - intros w s' fs' pg Hin Hnone H.
    destruct (Hn Hin) as [u Hu].
    assert (Hinit : init_snapshot_os (sess a) (files a)
                    = rbind (load_data_os u (files a)) (fun df =>
                      Ok (set_current_user (Some u)
                            (set_jobs_df (Some df) (sess a)), df))).
    { unfold init_snapshot_os. rewrite Hnone, Hu. reflexivity. }
    unfold main_app_os in H. rewrite Hinit in H.
    destruct (button_eqb (clicked w) Logout); [discriminate |].
    destruct (load_data_os u (files a)) as [df |] eqn:Hl; cbn [rbind] in H;
      [| discriminate].
    rewrite statistics_aggregate in H.
    exists u, df.
    repeat case_match; simplify_eq; simpl; rewrite ?Hu; auto.
Qed.

Lemma reachable_os_play (users0 : option users_map) (files0 : data_dir)
    (story : list input) (a : app) :
  reachable_os users0 files0 a -> reachable_os users0 files0 (play_os story a).
Proof.
  revert a. induction story as [| i story IH]; intros a Hr; simpl.
  - exact Hr.
  - apply IH. apply reach_os_step. exact Hr.
Qed.

(** ** The statistics and the search box *)

(** C3 at the search text "(", which is no regular expression.  The
    statistics of lines 285-299 come after the filters of lines 270-281 in
    the script, and the search text is compiled as a regular expression
    there (the defect of C4): with this text the run ends with the
    exception of line 275 and shows no page, hence no statistics, although
    the statistics of the snapshot are defined and the same session shows
    them as soon as the search box is empty. *)
Theorem statistics_missing_on_bad_search (w : widgets) (s s1 : session)
    (fs : data_dir) (df : list row) :
  re_rest "(" = None ->
  search_query w = "(" ->
  clicked w = NoButton \/ table_button (clicked w) = true ->
  init_snapshot s fs = Ok (s1, df) ->
  main_app w s fs = (s1, fs, Raised ReError)
  /\ statistics df = Ok (aggregate df)
  /\ (clicked w = NoButton ->
      exists pg,
        main_app (mk_widgets (clicked w) (company_name w) (job_title w)
                             (status w) (applied_date w) (package w)
                             "" "All" (data_editor w)) s fs
        = (s1, fs, Finished pg)
        /\ shown_stats pg = aggregate df).
Proof.
  intros Hre Hq Hb Hinit. split; [| split].
  - assert (Hf : apply_filters df (search_query w) (status_filter w)
                 = Raise ReError).
    { unfold apply_filters, str_contains. rewrite Hq. simpl.
      rewrite Hre. reflexivity. }
    unfold main_app. rewrite Hinit, Hf.
    destruct Hb as [Hb | Hb]; [rewrite Hb; reflexivity |].
    destruct (clicked w); try discriminate; reflexivity.
  - apply statistics_aggregate.
  - intros Hc.
    destruct (statistics_unfiltered s s1 fs df Hinit) as [_ Hplain].
    apply Hplain; [exact Hc | reflexivity].
Qed.

(** ** Registration and its errors *)

(** C5.  Let the registration form be submitted with the password typed
    again as its confirmation.  A registration with an empty username,
    display name or password fails as incomplete.  One whose password has
    fewer than 4 characters fails as too short, unless a field is empty and
    it fails as incomplete.  One whose username exists fails as a
    duplicate, unless the password is too short or a field is empty and it
    fails with that error.  Every registration that does not create the
    account, whatever the confirmation, leaves the credential store as it
    was, the record of that username included. *)
Theorem register_form_errors (users_file : option users_map)
    (u d p now : string) :
  let r := register_form u d p p now users_file in
  (u = "" \/ d = "" \/ p = "" -> r = (users_file, FillInAllFields))
  /\ (String.length p < 4 ->
      r = (users_file, PasswordTooShort)
      \/ ((u = "" \/ d = "" \/ p = "") /\ r = (users_file, FillInAllFields)))
  /\ (is_Some (load_users users_file !! u) ->
      r = (users_file, UsernameAlreadyExists)
      \/ (String.length p < 4 /\ r = (users_file, PasswordTooShort))
      \/ ((u = "" \/ d = "" \/ p = "") /\ r = (users_file, FillInAllFields)))
  /\ (forall c,
        snd (register_form u d p c now users_file) <> AccountCreated ->
        fst (register_form u d p c now users_file) = users_file
        /\ load_users (fst (register_form u d p c now users_file)) !! u
           = load_users users_file !! u).
Proof.
  intros r.
  assert (Hempty : u = "" \/ d = "" \/ p = "" ->
                   r = (users_file, FillInAllFields)).
  { intros H. apply (register_form_failures users_file u d p p now). exact H. }
  assert (Hcases : (u = "" \/ d = "" \/ p = "")
                   \/ (u <> "" /\ d <> "" /\ p <> "")).
  { destruct (decide (u = "")); [auto |].
    destruct (decide (d = "")); [auto |].
    destruct (decide (p = "")); auto. }
  destruct (register_form_failures users_file u d p p now)
    as (_ & _ & Hshort & Hdup & _).
  split; [exact Hempty |]. split; [| split].
  - intros Hlen. destruct Hcases as [He | (Hu & Hd & Hp)].
    + right. split; [exact He | exact (Hempty He)].
    + left. apply Hshort; auto.
  - intros Hex. destruct Hcases as [He | (Hu & Hd & Hp)].
    + right. right. split; [exact He | exact (Hempty He)].
    + destruct (Nat.lt_ge_cases (String.length p) 4) as [Hlen | Hlen].
      * right. left. split; [exact Hlen | apply Hshort; auto].
      * left. apply Hdup; auto.
  - intros c Hfail.
    destruct (register_form_failures users_file u d p c now)
      as (_ & _ & _ & _ & Hkeep).
    rewrite (Hkeep Hfail). split; reflexivity.
Qed.

End App.

(** * Worked examples *)

(** ** SHA-256 test vectors *)

Example sha256_round_constants :
  length Sha256.K = 64
  /\ nth 0 Sha256.K 0%Z = 0x428a2f98%Z
  /\ nth 63 Sha256.K 0%Z = 0xc67178f2%Z
  /\ nth 0 Sha256.H0 0%Z = 0x6a09e667%Z
  /\ nth 7 Sha256.H0 0%Z = 0x5be0cd19%Z.
Proof. vm_compute. repeat split; reflexivity. Qed.

Example sha256_abc :
  hash_password "abc"
  = "ba7816bf8f01cfea414140de5dae2223b00361a396177a9cb410ff61f20015ad".
Proof. vm_compute. reflexivity. Qed.

Example sha256_empty :
  hash_password ""
  = "e3b0c44298fc1c149afbf4c8996fb92427ae41e4649b934ca495991b7852b855".
Proof. vm_compute. reflexivity. Qed.

Example sha256_two_blocks :
  hash_password "abcdbcdecdefdefgefghfghighijhijkijkljklmklmnlmnomnopnopq"
  = "248d6a61d20638b8e5c026930c3e6039a33ce45964ff2167f6ecedd419db06c1".
Proof. vm_compute. reflexivity. Qed.

(** The text is c, a, f, e with an acute accent, a space and y with a
    diaeresis; the last but two and the last take two bytes in UTF-8. *)
Example sha256_latin1 :
  hash_password ("caf" +:+ String (Str.chr 233) (" " +:+ String (Str.chr 255) ""))
  = "7c06cae138dbd8967aaab71bee84bcec21d1848d2c2467e99fcc500dba2beae5".
Proof. vm_compute. reflexivity. Qed.

Example sha256_pass1234 :
  hash_password "pass1234"
  = "bd94dcda26fccb4e68d6a31f9b5aac0b571ae266d822620e901ef7ebe3a11d4f".
Proof. vm_compute. reflexivity. Qed.

Example isoformat_jan10 : isoformat jan10 = "2024-01-10".
Proof. reflexivity. Qed.

Example parse_date_feb30 : parse_date "2024-02-30" = None.
Proof. reflexivity. Qed.

Example parse_date_leap : option_map isoformat (parse_date "2024-02-29")
                          = Some "2024-02-29".
Proof. reflexivity. Qed.

(** ** Login *)

(** C1, as stated, fails.  With the store of "alice", a login with an empty
    password fails with the "enter both" error, not with the
    invalid-credentials one.  And in the store whose record of "bob" holds
    the digest of the empty password, a record exists for "bob" and the
    digest of the supplied password equals the stored hash, yet the login
    does not succeed. *)
Lemma login_blank_password_refused :
  login_form "alice" "" new_session users_alice
  = (new_session, Finished (Some EnterBothUsernameAndPassword))
  /\ (exists rec, load_users users_blank !! "bob" = Some rec
                  /\ rec !! "password" = Some (hash_password ""))
  /\ login_form "bob" "" new_session users_blank
     = (new_session, Finished (Some EnterBothUsernameAndPassword)).
Proof.
  split; [reflexivity | split].
  - exists {[ "password" := hash_password "" ]}. split; reflexivity.
  - reflexivity.
Qed.

Lemma login_form_digest_witness :
  login_form "" "pass1234" new_session users_alice
  = (new_session, Finished (Some EnterBothUsernameAndPassword))
  /\ ((exists rec, load_users users_alice !! "alice" = Some rec
                   /\ rec !! "password" = Some (hash_password "pass1234"))
      <-> (snd (login_form "alice" "pass1234" new_session users_alice) = Rerun
           /\ logged_in (fst (login_form "alice" "pass1234" new_session
                                         users_alice)) = true
           /\ username (fst (login_form "alice" "pass1234" new_session
                                        users_alice)) = Some "alice"))
  /\ login_form "mallory" "pass1234" new_session users_alice
     = (new_session, Finished (Some InvalidUsernameOrPassword)).
Proof.
  destruct (login_form_digest users_alice new_session "" "pass1234")
    as [Hempty _].
  destruct (login_form_digest users_alice new_session "alice" "pass1234")
    as [_ Halice].
  destruct Halice as (Hiff & _ & _); [discriminate | discriminate |].
  destruct (login_form_digest users_alice new_session "mallory" "pass1234")
    as [_ Hmallory].
  destruct Hmallory as (_ & Hinvalid & _); [discriminate | discriminate |].
  split; [exact (Hempty eq_refl) | split; [exact Hiff |]].
  apply Hinvalid. left. reflexivity.
Defined.

Example login_alice :
  login_form "alice" "pass1234" new_session users_alice = (alice_in, Rerun).
Proof. vm_compute. reflexivity. Qed.

Example login_alice_wrong_password :
  login_form "alice" "pass1235" new_session users_alice
  = (new_session, Finished (Some InvalidUsernameOrPassword)).
Proof. vm_compute. reflexivity. Qed.

Example login_unknown_user :
  login_form "mallory" "pass1234" new_session users_alice
  = (new_session, Finished (Some InvalidUsernameOrPassword)).
Proof. vm_compute. reflexivity. Qed.

Lemma login_form_display_name_witness :
  exists s',
    login_form "carol" "secret" new_session users_carol = (s', Rerun)
    /\ logged_in s' = true
    /\ username s' = Some "carol"
    /\ (forall d, ({[ "password" := hash_password "secret" ]} : cred)
                    !! "display_name" = Some d -> display_name s' = Some d)
    /\ (({[ "password" := hash_password "secret" ]} : cred)
          !! "display_name" = None -> display_name s' = Some "carol").
Proof.
  apply (login_form_display_name users_carol new_session "carol" "secret");
    [discriminate | discriminate | reflexivity | reflexivity].
Defined.

Example login_carol_display_name :
  display_name (fst (login_form "carol" "secret" new_session users_carol))
  = Some "carol".
Proof. vm_compute. reflexivity. Qed.

(** ** Registration *)

(** The length of the password is checked before the username is looked
    up: "alice" is registered already, and a registration under that name
    with a password of three characters is refused as a too short
    password. *)
Example register_existing_name_short_password :
  is_Some (load_users users_alice !! "alice")
  /\ register_form "alice" "Alice" "abc" "abc" "2024-02-01T10:00:00" users_alice
     = (users_alice, PasswordTooShort).
Proof. split; [eexists; reflexivity | reflexivity]. Qed.

Lemma register_form_failures_witness :
  register_form "erin" "" "pass1234" "pass1234" "2024-02-01T10:00:00" users_alice
  = (users_alice, FillInAllFields)
  /\ register_form "erin" "Erin" "pass1234" "pass1235" "2024-02-01T10:00:00"
                   users_alice
     = (users_alice, PasswordsDoNotMatch)
  /\ register_form "erin" "Erin" "abc" "abc" "2024-02-01T10:00:00" users_alice
     = (users_alice, PasswordTooShort)
  /\ register_form "alice" "Alice" "pass1234" "pass1234" "2024-02-01T10:00:00"
                   users_alice
     = (users_alice, UsernameAlreadyExists)
  /\ fst (register_form "alice" "Alice" "pass1234" "pass1234"
                        "2024-02-01T10:00:00" users_alice)
     = users_alice.
Proof.
  destruct (register_form_failures users_alice "erin" "" "pass1234" "pass1234"
              "2024-02-01T10:00:00") as (H1 & _).
  destruct (register_form_failures users_alice "erin" "Erin" "pass1234"
              "pass1235" "2024-02-01T10:00:00") as (_ & H2 & _).
  destruct (register_form_failures users_alice "erin" "Erin" "abc" "abc"
              "2024-02-01T10:00:00") as (_ & _ & H3 & _).
  destruct (register_form_failures users_alice "alice" "Alice" "pass1234"
              "pass1234" "2024-02-01T10:00:00") as (_ & _ & _ & H4 & H5).
  split; [apply H1; right; left; reflexivity |].
  split; [apply H2; discriminate |].
  split; [apply H3; [discriminate | discriminate | discriminate
                    | reflexivity | simpl; lia] |].
  split; [apply H4; [discriminate | discriminate | discriminate
                    | reflexivity | simpl; lia | eexists; reflexivity] |].
  apply H5. discriminate.
Defined.

(** Registering "alice" in the empty store gives the store [users_alice]. *)
Example register_alice :
  register_form "alice" "Alice" "pass1234" "pass1234" "2024-01-10T09:00:00" None
  = (users_alice, AccountCreated).
Proof. vm_compute. reflexivity. Qed.

Example register_mismatch :
  register_form "erin" "Erin" "pass1234" "pass1235" "2024-02-01T10:00:00"
                users_alice
  = (users_alice, PasswordsDoNotMatch).
Proof. reflexivity. Qed.

(** ** The statistics *)

Lemma statistics_unfiltered_witness :
  (exists pg,
     main_app no_rest idle alice_in files_alice
     = (alice_ready, files_alice, Finished pg)
     /\ shown_stats pg = mk_stats 1 0 0 1)
  /\ shown_stats (mk_page None (mk_stats 1 0 0 1) [] false) = aggregate [acme]
  /\ jobs_df alice_ready = Some [acme].
Proof.
  destruct (statistics_unfiltered no_rest alice_in alice_ready files_alice
              [acme] eq_refl) as (Hany & Hplain).
  split; [exact (Hplain idle eq_refl eq_refl) |].
  exact (Hany (mk_widgets NoButton "" "" "Applied" jan10 "" "zzz" "Rejected"
                          (fun table => table))
              alice_ready files_alice
              (mk_page None (mk_stats 1 0 0 1) [] false) eq_refl).
Defined.

(** The counters do not move when a filter hides every record. *)
Example statistics_with_filter :
  main_app no_rest
           (mk_widgets NoButton "" "" "Applied" jan10 "" "zzz" "Rejected"
                       (fun table => table))
           alice_ready files_alice
  = (alice_ready, files_alice,
     Finished (mk_page None (mk_stats 1 0 0 1) [] false)).
Proof. reflexivity. Qed.

Example statistics_two_records :
  statistics no_rest [acme; globex] = Ok (mk_stats 2 1 0 1).
Proof. reflexivity. Qed.

(** ** The filters *)

Example apply_filters_acme :
  apply_filters no_rest [acme; globex] "acme" "All" = Ok [acme].
Proof. reflexivity. Qed.

Example apply_filters_status :
  apply_filters no_rest [acme; globex] "" "Interview Scheduled" = Ok [globex].
Proof. reflexivity. Qed.

Example apply_filters_both :
  apply_filters no_rest [acme; globex] "E" "Applied" = Ok [acme].
Proof. reflexivity. Qed.

(** A full stop in a company name is found by the search text "." as by
    any other: "." finds every non-empty name. *)
Example apply_filters_full_stop_globex :
  apply_filters no_rest [acme; globex] "." "All" = Ok [acme; globex].
Proof. reflexivity. Qed.

(** ** Saving the edited table *)



(** After the status of the record of Acme is set to "Interview Scheduled"
    and saved, the next run counts one interview and nothing pending. *)
Example statistics_after_edit :
  let '(s, fs, _) := main_app no_rest save_interview alice_ready files_alice in
  exists pg,
    main_app no_rest idle s fs = (s, fs, Finished pg)
    /\ shown_stats pg = mk_stats 1 1 0 0.
Proof. simpl. eexists. split; reflexivity. Qed.

(** ** Clearing all records *)


Example clear_all_cancelled :
  run_all no_rest [press ClearAll idle; idle; press Cancel idle]
          alice_ready files_alice
  = (alice_ready, files_alice).
Proof. reflexivity. Qed.

(** ** Persistence *)

Example load_data_no_file : load_data "nobody" files_alice = Ok [].
Proof. reflexivity. Qed.

(** ** Separation of the users *)

Lemma users_do_not_interfere_witness :
  load_data "bob" (fold_left (fun f df => save_data "alice" df f)
                             [[acme; globex]; []] files_both)
  = load_data "bob" files_both
  /\ load_data "bob" (save_data "alice" [acme; globex] files_both)
     = load_data "bob" files_both.
Proof.
  destruct (users_do_not_interfere no_rest "alice" "bob") as (Hsaves & Hruns);
    [discriminate |].
  split; [apply Hsaves |].
  apply (Hruns add_globex alice_in
               (set_jobs_df (Some [acme; globex]) alice_ready)
               files_both (save_data "alice" [acme; globex] files_both) Rerun);
    reflexivity.
Defined.

(** ** The snapshot belongs to the user of the session *)

(** After "alice", "bob" logs in in the same browser session: his page
    holds his own, empty, collection, and the record of "alice" stays in
    her file. *)
Example bob_after_alice :
  let a := play no_rest (alice_story ++ bob_story) (mk_app new_session None ∅) in
  username (sess a) = Some "bob"
  /\ current_user (sess a) = Some "bob"
  /\ jobs_df (sess a) = Some []
  /\ load_data "alice" (files a) = Ok [acme].
Proof. vm_compute. repeat split; reflexivity. Qed.

(** ** Further worked examples *)

Lemma register_then_login_witness :
  snd (register_form "alice" "Alice" "pass1234" "pass1234"
                     "2024-01-10T09:00:00" None) = AccountCreated
  /\ login_form "alice" "pass1234" new_session
       (fst (register_form "alice" "Alice" "pass1234" "pass1234"
                           "2024-01-10T09:00:00" None))
     = (alice_in, Rerun).
Proof.
  apply (register_then_login None new_session "alice" "Alice" "pass1234"
           "2024-01-10T09:00:00");
    [discriminate | discriminate | simpl; lia | reflexivity].
Defined.

Lemma register_form_keeps_records_witness :
  load_users (fst (register_form "bob" "Bob" "hunter22" "hunter22"
                                 "2024-01-11T09:00:00" users_alice)) !! "alice"
  = Some alice_record
  /\ (forall q s,
        login_form "alice" q s
          (fst (register_form "bob" "Bob" "hunter22" "hunter22"
                              "2024-01-11T09:00:00" users_alice))
        = login_form "alice" q s users_alice).
Proof.
  apply (register_form_keeps_records users_alice "bob" "Bob" "hunter22"
           "hunter22" "2024-01-11T09:00:00" "alice" alice_record).
  reflexivity.
Defined.

Lemma login_form_failure_witness :
  fst (login_form "alice" "pass1235" alice_in users_alice) = alice_in
  /\ login_form "zed" "anything" new_session users_zed
     = (new_session, Raised KeyError).
Proof.
  destruct (login_form_failure users_alice alice_in "alice" "pass1235")
    as (Hkeep & _).
  destruct (login_form_failure users_zed new_session "zed" "anything")
    as (_ & Hkey).
  split.
  - apply (Hkeep alice_in (Finished (Some InvalidUsernameOrPassword)));
      [vm_compute; reflexivity | discriminate].
  - apply (Hkey {[ "display_name" := "Zed" ]});
      [discriminate | discriminate | reflexivity | reflexivity].
Defined.

Lemma session_consistent_witness :
  (exists u,
     username (sess (play no_rest alice_story (mk_app new_session None ∅)))
     = Some u
     /\ u <> ""
     /\ is_Some (load_users
                   (users_file (play no_rest alice_story
                                     (mk_app new_session None ∅))) !! u)
     /\ is_Some (display_name
                   (sess (play no_rest alice_story (mk_app new_session None ∅)))))
  /\ (username (sess (play no_rest alice_leaves
                           (mk_app new_session None ∅))) = None
      /\ display_name (sess (play no_rest
                                  alice_leaves
                                  (mk_app new_session None ∅))) = None
      /\ jobs_df (sess (play no_rest
                             alice_leaves
                             (mk_app new_session None ∅))) = None).
Proof.
  destruct (session_consistent no_rest None ∅
              (play no_rest alice_story (mk_app new_session None ∅)))
    as (Hin & _).
  { apply reachable_play. apply reach_start. }
  destruct (session_consistent no_rest None ∅
              (play no_rest alice_leaves
                    (mk_app new_session None ∅)))
    as (_ & Hout).
  { apply reachable_play. apply reach_start. }
  split; [apply Hin | apply Hout]; vm_compute; reflexivity.
Defined.

Lemma credentials_are_kept_witness :
  load_users (users_file (play no_rest bob_registers
                               (mk_app new_session users_alice ∅))) !! "alice"
  = Some alice_record.
Proof.
  apply (credentials_are_kept no_rest users_alice ∅).
  - apply reachable_play. apply reach_start.
  - reflexivity.
Defined.

Lemma store_stays_registered_witness :
  registered (load_users (users_file (play no_rest alice_story
                                           (mk_app new_session None ∅))))
  /\ (forall u p s,
        snd (login_form u p s
               (users_file (play no_rest alice_story
                                 (mk_app new_session None ∅))))
        <> Raised KeyError).
Proof.
  apply (store_stays_registered no_rest None ∅).
  - exact registered_empty.
  - apply reachable_play. apply reach_start.
Defined.

Lemma main_app_unloadable_witness :
  main_app no_rest idle alice_in files_broken
  = (alice_in, files_broken, Raised CorruptStore)
  /\ main_app no_rest (press Logout idle) alice_in files_broken
     = (logged_out alice_in, files_broken, Rerun).
Proof.
  destruct (main_app_unloadable no_rest idle alice_in files_broken CorruptStore
              eq_refl eq_refl) as (Hstuck & _).
  destruct (main_app_unloadable no_rest (press Logout idle) alice_in
              files_broken CorruptStore eq_refl eq_refl) as (_ & Hout).
  split; [apply Hstuck; discriminate | apply Hout; reflexivity].
Defined.

Lemma add_form_incomplete_witness :
  exists pg,
    main_app no_rest add_untitled alice_ready files_alice
    = (alice_ready, files_alice, Finished pg).
Proof.
  destruct (add_form_incomplete no_rest add_untitled alice_ready alice_ready
              files_alice [acme]) as (_ & Hshown);
    [reflexivity | right; reflexivity | reflexivity |].
  apply Hshown. reflexivity.
Defined.


Lemma pending_request_outlives_logout_witness :
  show_confirm bob_after_request = true
  /\ (exists s3 pg,
        main_app no_rest idle bob_after_request files_both
        = (s3, files_both, Finished pg)
        /\ jobs_df s3 = Some [globex]
        /\ shown_confirm pg = true).
Proof.
  destruct (pending_request_outlives_logout no_rest (press Logout idle)
              alice_asked bob_after_request files_both users_bob
              "bob" "hunter22") as (Hpending & Hdialog);
    [reflexivity | reflexivity | vm_compute; reflexivity |].
  split; [exact Hpending |].
  apply (Hdialog idle [globex] globex []); reflexivity.
Defined.

Lemma empty_table_is_inert_witness :
  exists pg,
    main_app no_rest (press YesDeleteAll idle)
             (set_show_confirm true (set_jobs_df (Some []) alice_ready))
             (save_data "alice" [] files_alice)
    = (set_show_confirm true (set_jobs_df (Some []) alice_ready),
       save_data "alice" [] files_alice, Finished pg)
    /\ shown_table pg = [] /\ shown_confirm pg = false
    /\ shown_stats pg = aggregate [].
Proof.
  apply (empty_table_is_inert no_rest (press YesDeleteAll idle)
           (set_show_confirm true (set_jobs_df (Some []) alice_ready))
           (set_show_confirm true (set_jobs_df (Some []) alice_ready))
           (save_data "alice" [] files_alice) []);
    [reflexivity | reflexivity | right; reflexivity].
Defined.

Lemma statistics_disjoint_witness :
  total_apps (mk_stats 2 1 0 1) = length [acme; globex]
  /\ interview_count (mk_stats 2 1 0 1) + offers (mk_stats 2 1 0 1)
     + pending (mk_stats 2 1 0 1) <= total_apps (mk_stats 2 1 0 1).
Proof.
  apply (statistics_disjoint no_rest [acme; globex] (mk_stats 2 1 0 1)).
  reflexivity.
Defined.

Lemma statistics_on_vocabulary_witness :
  interview_count (mk_stats 2 1 0 1)
  = count (fun r => interview_status (Status r)) [acme; globex]
  /\ total_apps (mk_stats 2 1 0 1)
     = interview_count (mk_stats 2 1 0 1) + offers (mk_stats 2 1 0 1)
       + pending (mk_stats 2 1 0 1)
       + count (fun r => String.eqb (Status r) "Rejected") [acme; globex]
       + count (fun r => String.eqb (Status r) "Withdrawn") [acme; globex].
Proof.
  apply (statistics_on_vocabulary no_rest [acme; globex] (mk_stats 2 1 0 1)).
  - apply Forall_cons. split; [simpl; tauto |].
    apply Forall_cons. split; [simpl; tauto | constructor].
  - reflexivity.
Defined.

Lemma apply_filters_sound_witness :
  sublist [acme] [acme; globex]
  /\ length [acme] <= length [acme; globex]
  /\ ("Applied" <> "All" -> Forall (fun r => Status r = "Applied") [acme]).
Proof.
  apply (apply_filters_sound no_rest [acme; globex] [acme] "e" "Applied").
  reflexivity.
Defined.

Lemma apply_filters_row_by_row_witness :
  apply_filters no_rest [acme] "e" "Applied" = Ok [acme]
  /\ apply_filters no_rest ([acme; globex] ++ [globex; acme])%list "e" "Applied"
     = Ok ([acme] ++ [acme])%list.
Proof.
  destruct (apply_filters_row_by_row no_rest "e" "Applied") as (Hidem & Happ).
  split.
  - apply (Hidem [acme; globex]). reflexivity.
  - apply Happ; reflexivity.
Defined.

Lemma search_ignores_case_witness :
  apply_filters no_rest [acme; globex] "ACME" "All"
  = apply_filters no_rest [acme; globex] "acme" "All"
  /\ apply_filters no_rest [acme; globex] (Str.lower "ACME") "All"
     = apply_filters no_rest [acme; globex] "ACME" "All".
Proof.
  apply (search_ignores_case no_rest [acme; globex] "ACME" "acme" "All");
    reflexivity.
Defined.

Lemma register_twice_witness :
  register_form "alice" "Mallory" "letmein" "letmein" "2024-03-01T08:00:00"
    (fst (register_form "alice" "Alice" "pass1234" "pass1234"
                        "2024-01-10T09:00:00" None))
  = (fst (register_form "alice" "Alice" "pass1234" "pass1234"
                        "2024-01-10T09:00:00" None), UsernameAlreadyExists)
  /\ login_form "alice" "pass1234" new_session
       (fst (register_form "alice" "Alice" "pass1234" "pass1234"
                           "2024-01-10T09:00:00" None))
     = (alice_in, Rerun).
Proof.
  apply (register_twice None new_session "alice" "Alice" "pass1234"
           "2024-01-10T09:00:00" "Mallory" "letmein" "2024-03-01T08:00:00");
    [discriminate | discriminate | simpl; lia | reflexivity
    | discriminate | simpl; lia].
Defined.

Lemma rerun_changes_nothing_witness :
  files_alice = files_alice
  /\ main_app no_rest idle alice_ready files_alice
     = (alice_ready, files_alice,
        Finished (mk_page None (mk_stats 1 0 0 1) [acme] false)).
Proof.
  apply (rerun_changes_nothing no_rest idle alice_in alice_ready
           files_alice files_alice
           (Finished (mk_page None (mk_stats 1 0 0 1) [acme] false)));
    reflexivity.
Defined.


(** ** Usernames that are no file names *)

(** C2 fails for usernames whose file cannot be created.  "a/b" is logged
    in and submits the add form: the record of Acme is in the snapshot of
    the session, the save raises, no file is written, and the stored
    collection of "a/b" loads as the empty sequence, not as the snapshot.
    For a username of 300 characters, for which nothing was ever stored,
    the load raises instead of returning the empty sequence. *)
Lemma add_unsaved_for_path_name :
  creatable (get_user_data_file "a/b") = false
  /\ main_app_os no_rest stat_long add_acme ab_in ∅
     = (ab_unsaved, ∅, Raised OSError)
  /\ jobs_df ab_unsaved = Some [acme]
  /\ load_data_os stat_long "a/b" ∅ = Ok []
  /\ String.length long_name = 300
  /\ (∅ : data_dir) !! get_user_data_file long_name = None
  /\ load_data_os stat_long long_name ∅ = Raise OSError.
Proof. repeat split; vm_compute; reflexivity. Qed.

Lemma mutations_round_trip_os_witness :
  creatable (get_user_data_file "alice") = true
  /\ (exists df,
        jobs_df (set_jobs_df (Some [acme; globex]) alice_ready) = Some df
        /\ load_data_os stat_long "alice"
                        (save_data "alice" [acme; globex] files_alice)
           = Ok df)
  /\ (main_app_os no_rest stat_long add_globex alice_in files_alice
      = (set_jobs_df (Some [acme; globex]) alice_ready,
         save_data "alice" [acme; globex] files_alice, Rerun)
      /\ load_data_os stat_long "alice"
                      (save_data "alice" [acme; globex] files_alice)
         = Ok [acme; globex])
  /\ load_data_os stat_long "nobody" files_alice = Ok [].
Proof.
  split; [reflexivity |].
  destruct (mutations_round_trip_os no_rest stat_long [idle] alice_in
              files_alice eq_refl) as (Hlast & _ & _).
  destruct (mutations_round_trip_os no_rest stat_long [] alice_in files_alice
              eq_refl) as (_ & Hadd & Hnone).
  split.
  { apply (Hlast add_globex); reflexivity. }
  split.
  { apply (Hadd add_globex alice_ready [acme]);
      [reflexivity | discriminate | discriminate | reflexivity]. }
  apply Hnone; reflexivity.
Defined.

(** C9 fails for the same usernames.  "a/b" registers, logs in, sees the
    page and submits the add form: the state reached holds a snapshot with
    the record of Acme for "a/b", while the record store holds nothing for
    "a/b"; the snapshot was neither loaded from the store nor persisted to
    it. *)
Lemma snapshot_never_stored :
  reachable_os no_rest stat_long None ∅
    (play_os no_rest stat_long ab_story (mk_app new_session None ∅))
  /\ sess (play_os no_rest stat_long ab_story (mk_app new_session None ∅))
     = ab_unsaved
  /\ logged_in ab_unsaved = true
  /\ username ab_unsaved = Some "a/b"
  /\ jobs_df ab_unsaved = Some [acme]
  /\ files (play_os no_rest stat_long ab_story (mk_app new_session None ∅)) = ∅
  /\ load_data_os stat_long "a/b" ∅ = Ok [].
Proof.
  split.
  { apply reachable_os_play. apply reach_os_start. }
  repeat split; vm_compute; reflexivity.
Qed.

Lemma snapshot_of_current_user_os_witness :
  (exists u,
     logged_in (sess (play_os no_rest stat_long alice_story
                              (mk_app new_session None ∅))) = true
     /\ username (sess (play_os no_rest stat_long alice_story
                                (mk_app new_session None ∅))) = Some u
     /\ current_user (sess (play_os no_rest stat_long alice_story
                                    (mk_app new_session None ∅))) = Some u
     /\ (creatable (get_user_data_file u) = true ->
         load_data_os stat_long u
           (files (play_os no_rest stat_long alice_story
                           (mk_app new_session None ∅)))
         = Ok [acme]))
  /\ (exists u df,
        username alice_ready = Some u
        /\ current_user alice_ready = Some u
        /\ jobs_df alice_ready = Some df
        /\ load_data_os stat_long u files_alice = Ok df
        /\ shown_stats (mk_page None (mk_stats 1 0 0 1) [acme] false)
           = aggregate df).
Proof.
  destruct (snapshot_of_current_user_os no_rest stat_long None ∅
              (play_os no_rest stat_long alice_story
                       (mk_app new_session None ∅)))
    as (Hsnap & _ & _).
  { apply reachable_os_play. apply reach_os_start. }
  destruct (snapshot_of_current_user_os no_rest stat_long None files_alice
              (play_os no_rest stat_long alice_arrives
                       (mk_app new_session None files_alice)))
    as (_ & _ & Hpage).
  { apply reachable_os_play. apply reach_os_start. }
  split.
  - apply Hsnap. vm_compute. reflexivity.
  - apply (Hpage idle alice_ready files_alice
                  (mk_page None (mk_stats 1 0 0 1) [acme] false));
      vm_compute; reflexivity.
Defined.

(** Saving for "alice", whose file can be created, and for "a/b", whose
    file cannot. *)
Lemma save_data_os_outcome_witness :
  (creatable (get_user_data_file "alice") = true
   /\ save_data_os "alice" [acme; globex] files_alice = Ok files_two
   /\ load_data_os stat_long "alice" files_two = Ok [acme; globex])
  /\ (creatable (get_user_data_file "a/b") = false
      /\ save_data_os "a/b" [acme] ∅ = Raise OSError
      /\ main_app_os no_rest stat_long add_acme ab_in ∅
         = (ab_unsaved, ∅, Raised OSError)).
Proof.
  destruct (save_data_os_outcome no_rest stat_long "alice" files_alice)
    as [Hyes _].
  destruct (save_data_os_outcome no_rest stat_long "a/b" ∅) as [_ Hno].
  split.
  - split; [reflexivity |].
    destruct (Hyes eq_refl [acme; globex] []) as (Hsave & Hload & _).
    split; [exact Hsave | exact Hload].
  - split; [reflexivity |].
    destruct (Hno eq_refl) as (Hsave & Hadd & _).
    split; [exact (Hsave [acme]) |].
    apply (Hadd add_acme ab_in
                (mk_session true (Some "a/b") (Some "Ab") (Some [])
                            (Some "a/b") false) []);
      [reflexivity | reflexivity | discriminate | discriminate | reflexivity].
Defined.

(** ** The search text "(" *)

(** "alice" has one record and types "(" into the search box: the run
    raises and shows no page; with the box empty her page shows the
    statistics of her record. *)
Lemma statistics_missing_on_bad_search_witness :
  no_rest "(" = None
  /\ search_query search_bracket = "("
  /\ init_snapshot alice_ready files_alice = Ok (alice_ready, [acme])
  /\ main_app no_rest search_bracket alice_ready files_alice
     = (alice_ready, files_alice, Raised ReError)
  /\ statistics no_rest [acme] = Ok (mk_stats 1 0 0 1)
  /\ exists pg,
       main_app no_rest idle alice_ready files_alice
       = (alice_ready, files_alice, Finished pg)
       /\ shown_stats pg = mk_stats 1 0 0 1.
Proof.
  destruct (statistics_missing_on_bad_search no_rest search_bracket
              alice_ready alice_ready files_alice [acme]
              eq_refl eq_refl (or_introl eq_refl) eq_refl)
    as (Hraise & Hstats & Hpage).
  split; [reflexivity |]. split; [reflexivity |]. split; [reflexivity |].
  split; [exact Hraise |]. split; [exact Hstats |].
  exact (Hpage eq_refl).
Defined.

(** ** Registration: the three errors *)

(** "alice" exists.  Registering her name again with a good password fails
    as a duplicate; with a password of three characters it fails as too
    short; with an empty display name it fails as incomplete.  The store
    is the same afterwards, also when the confirmation differs. *)
Lemma register_form_errors_witness :
  register_form "alice" "Ally" "pass5678" "pass5678" "2024-02-01T10:00:00"
                users_alice
  = (users_alice, UsernameAlreadyExists)
  /\ register_form "alice" "Ally" "abc" "abc" "2024-02-01T10:00:00" users_alice
     = (users_alice, PasswordTooShort)
  /\ register_form "alice" "" "abc" "abc" "2024-02-01T10:00:00" users_alice
     = (users_alice, FillInAllFields)
  /\ load_users (fst (register_form "alice" "Ally" "pass5678" "pass9999"
                                    "2024-02-01T10:00:00" users_alice))
     !! "alice"
     = Some alice_record.
Proof.
  assert (Hex : is_Some (load_users users_alice !! "alice")).
  { exists alice_record. reflexivity. }
  destruct (register_form_errors users_alice "alice" "Ally" "pass5678"
              "2024-02-01T10:00:00") as (_ & _ & Hdup & Hkeep).
  destruct (register_form_errors users_alice "alice" "Ally" "abc"
              "2024-02-01T10:00:00") as (_ & Hshort & _ & _).
  destruct (register_form_errors users_alice "alice" "" "abc"
              "2024-02-01T10:00:00") as (Hempty & _ & _ & _).
  split; [| split; [| split]].
  - destruct (Hdup Hex) as [H | [[Hlen _] | [[He | [He | He]] _]]];
      [exact H | simpl in Hlen; lia | discriminate ..].
  - destruct Hshort as [H | [[He | [He | He]] _]];
      [simpl; lia | exact H | discriminate ..].
  - apply Hempty. right. left. reflexivity.
  - destruct (Hkeep "pass9999") as [_ Hrec]; [discriminate |].
    rewrite Hrec. reflexivity.
Defined.
